(** * OmniLogic UDP client: frame codec and transport session

    A shallow embedding of [omnilogic.py]: the [OmniLogicRequest] codec
    ([toBytes], [fromBytes]) and the transport methods of [OmniLogicAPI]
    ([_sendRequest], [_waitForData], [_recv], [_sendAck], [_receiveFile]).

    Python [bytes] are lists of [byte]; Python [str] values are lists of
    Unicode code points; Python integers are [Z].  The socket, the clock and
    the random generator form an explicit [World] that every method threads
    through; exceptions are an outcome of the computation.  The times
    [_waitForData] computes with are Python floats: they and their
    operations are a [PyFloat], and [binary64] has them on doubles. *)

From Stdlib Require Import String Ascii ZArith NArith Bool Lia List.
From Stdlib Require Import Strings.Byte.
From Stdlib Require PrimFloat SpecFloat FloatOps.
Import ListNotations.
Local Open Scope Z_scope.

(** ** Python values and exceptions *)

Definition bytes := list byte.

(** A Python [str]: its sequence of code points. *)
Definition str := list N.

(** The text of an ASCII literal of the source. *)
Definition literal (s : string) : str :=
  map N_of_ascii (list_ascii_of_string s).

(** The exceptions the modelled code can raise.  [Exception_] is the bare
    [Exception()] of [_waitForData]; [xml_error] stands for whatever the two
    XML lines of [_receiveFile] raise (ParseError, IndexError, ValueError). *)
Inductive PyExn : Type :=
| struct_error
| socket_timeout
| Exception_
| zlib_error
| UnicodeEncodeError
| UnicodeDecodeError
| xml_error.

(** Result of code that touches no state. *)
Inductive Res (A : Type) : Type :=
| Ok (a : A)
| Err (e : PyExn).
Arguments Ok {A} a.
Arguments Err {A} e.

Definition Res_bind {A B} (r : Res A) (k : A -> Res B) : Res B :=
  match r with
  | Ok a => k a
  | Err e => Err e
  end.

Declare Scope res_scope.
Delimit Scope res_scope with res.
Notation "x <~ c ; k" := (Res_bind c (fun x => k))
  (at level 61, c at next level, right associativity) : res_scope.

(** ** Bytes and integers *)

Definition byte_of_Z (z : Z) : byte :=
  match Byte.of_N (Z.to_N (z mod 256)) with
  | Some b => b
  | None => x00
  end.

Definition Z_of_byte (b : byte) : Z := Z.of_N (Byte.to_N b).

(** Network order: the most significant byte comes first. *)
Fixpoint be_bytes (w : nat) (v : Z) : bytes :=
  match w with
  | O => []
  | S k => byte_of_Z (v / 256 ^ Z.of_nat k) :: be_bytes k v
  end.

Fixpoint be_decode (bs : bytes) : Z :=
  match bs with
  | [] => 0
  | b :: rest => Z_of_byte b * 256 ^ Z.of_nat (length rest) + be_decode rest
  end.

(** ** The [struct] module, for the one format string the source uses *)

(** [struct.pack] of one unsigned field of [w] bytes ('B', 'L', 'Q' under
    '!'): a value outside the field's range raises [struct.error]. *)
Definition pack_uint (w : nat) (v : Z) : Res bytes :=
  if (0 <=? v) && (v <? 256 ^ Z.of_nat w)
  then Ok (be_bytes w v)
  else Err struct_error.

(** [struct.pack] of a '4s' field: truncated or null-padded to 4 bytes. *)
Definition pack_4s (s : bytes) : bytes := firstn 4 (s ++ repeat x00 4).

(** [struct.calcsize("!LQ4sLBBBB")]. *)
Definition HEADER_SIZE : nat := 4 + 8 + 4 + 4 + 1 + 1 + 1 + 1.

Definition Header : Type := (Z * Z * bytes * Z * Z * Z * Z * Z)%type.

(** [struct.pack("!LQ4sLBBBB", ...)]. *)
Definition struct_pack (h : Header) : Res bytes :=
  let '(msgId, tstamp, vers, msgType, clientType, res1, compressed, res3) := h in
  (f0 <~ pack_uint 4 msgId;
   f1 <~ pack_uint 8 tstamp;
   f3 <~ pack_uint 4 msgType;
   f4 <~ pack_uint 1 clientType;
   f5 <~ pack_uint 1 res1;
   f6 <~ pack_uint 1 compressed;
   f7 <~ pack_uint 1 res3;
   Ok (f0 ++ f1 ++ pack_4s vers ++ f3 ++ f4 ++ f5 ++ f6 ++ f7))%res.

(** The fields [struct.unpack] reads from a 24-byte header. *)
Definition unpack_fields (header : bytes) : Header :=
  (be_decode (firstn 4 header),
   be_decode (firstn 8 (skipn 4 header)),
   firstn 4 (skipn 12 header),
   be_decode (firstn 4 (skipn 16 header)),
   be_decode (firstn 1 (skipn 20 header)),
   be_decode (firstn 1 (skipn 21 header)),
   be_decode (firstn 1 (skipn 22 header)),
   be_decode (firstn 1 (skipn 23 header))).

(** [struct.unpack("!LQ4sLBBBB", header)]: the buffer must have exactly
    the size of the format. *)
Definition struct_unpack (header : bytes) : Res Header :=
  if Nat.eqb (length header) HEADER_SIZE
  then Ok (unpack_fields header)
  else Err struct_error.

(** ** [str.encode("utf-8")] *)

Definition utf8_byte (n : N) : option byte := Byte.of_N n.

(** The UTF-8 bytes of one code point; a surrogate cannot be encoded. *)
Definition utf8_encode_char (c : N) : option bytes :=
  (if c <? 0x80 then
     option_map (fun b => [b]) (utf8_byte c)
   else if c <? 0x800 then
     match utf8_byte (0xC0 + c / 64), utf8_byte (0x80 + c mod 64) with
     | Some b0, Some b1 => Some [b0; b1]
     | _, _ => None
     end
   else if (0xD800 <=? c) && (c <? 0xE000) then None
   else if c <? 0x10000 then
     match utf8_byte (0xE0 + c / 4096), utf8_byte (0x80 + (c / 64) mod 64),
           utf8_byte (0x80 + c mod 64) with
     | Some b0, Some b1, Some b2 => Some [b0; b1; b2]
     | _, _, _ => None
     end
   else if c <? 0x110000 then
     match utf8_byte (0xF0 + c / 262144), utf8_byte (0x80 + (c / 4096) mod 64),
           utf8_byte (0x80 + (c / 64) mod 64), utf8_byte (0x80 + c mod 64) with
     | Some b0, Some b1, Some b2, Some b3 => Some [b0; b1; b2; b3]
     | _, _, _, _ => None
     end
   else None)%N.

Fixpoint utf8_encode (s : str) : option bytes :=
  match s with
  | [] => Some []
  | c :: rest =>
      match utf8_encode_char c, utf8_encode rest with
      | Some bs, Some more => Some (bs ++ more)
      | _, _ => None
      end
  end.

(** ** class OmniLogicRequest *)

Record OmniLogicRequest : Type := {
  msgId : Z;
  msgType : Z;
  clientType : Z;
  extraData : bytes;
  version : bytes
}.

(** The decoded 9-tuple [fromBytes] returns. *)
Definition Fields : Type := (Z * Z * bytes * Z * Z * Z * Z * Z * bytes)%type.

(** [OmniLogicRequest.__init__]. *)
Definition OmniLogicRequest_init (msgId msgType : Z) (extraData : str)
    (clientType : Z) : Res OmniLogicRequest :=
  match utf8_encode extraData, utf8_encode (literal "1.19") with
  | Some payload, Some vers =>
      Ok {| msgId := msgId; msgType := msgType; clientType := clientType;
            extraData := payload; version := vers |}
  | _, _ => Err UnicodeEncodeError
  end.

Section Codec.

(** [int(ns / (10**9))]: the float division and truncation that turns
    the reading of [time.time_ns()] into seconds. *)
Variable seconds_of_ns : Z -> Z.

(** [OmniLogicRequest.toBytes], at the clock reading [time_ns]. *)
Definition toBytes (self : OmniLogicRequest) (time_ns : Z) : Res bytes :=
  (retval <~ struct_pack (msgId self, seconds_of_ns time_ns, version self,
                          msgType self, clientType self, 0, 0, 0);
   Ok (retval ++ extraData self))%res.

End Codec.

(** [OmniLogicRequest.fromBytes]. *)
Definition fromBytes (data : bytes) : Res Fields :=
  let header := firstn 24 data in
  let rdata := skipn 24 data in
  (h <~ struct_unpack header;
   let '(msgId, tstamp, vers, msgType, clientType, res1, compressed, res3) := h in
   Ok (msgId, tstamp, vers, msgType, clientType, res1, compressed, res3, rdata))%res.

(** ** Message types *)

Definition REQUEST_CONFIGURATION_MESSAGE_TYPE : Z := 1.
Definition REQUEST_LOG_CONFIG_MESSAGE_TYPE : Z := 31.
Definition MSP_LEADMESSAGE_MESSAGE_TYPE : Z := 1998.
Definition MSP_BLOCKMESSAGE_MESSAGE_TYPE : Z := 1999.
Definition GETTELEMETRY_MESSAGE_TYPE : Z := 300.
Definition GETALARMLIST_MESSAGE_TYPE : Z := 304.
Definition MSP_TELEMETRYUPDATE_MESSAGE_TYPE : Z := 1004.
Definition XMLACK_MESSAGE_TYPE : Z := 0.
Definition ACK_MESSAGE_TYPE : Z := 1002.

(** ** The world: clock, random generator and UDP socket *)

Definition Addr : Type := (string * Z)%type.

(** The clock counts nanoseconds; [time.time()] and [time.time_ns()] read
    it.  [inbox] lists the datagrams on their way to the socket, each with
    the time that passes, once the one before it has been read, until it can
    be read; nothing arrives after the last one.  [timeout] is the socket's
    timeout ([None] for a blocking socket) and [outbox] what [sendto] has
    sent, oldest first.  Only a receive lets time pass. *)
Record World : Type := {
  time_ns : Z;
  entropy : list Z;
  timeout : option Z;
  inbox : list (Z * bytes);
  outbox : list (bytes * Addr)
}.

(** How a call ends: it returns, raises, or never comes back. *)
Inductive Outcome (A : Type) : Type :=
| Return (a : A)
| Raise (e : PyExn)
| Diverge.
Arguments Return {A} a.
Arguments Raise {A} e.
Arguments Diverge {A}.

Definition M (A : Type) : Type := World -> Outcome A * World.

Definition ret {A} (a : A) : M A := fun w => (Return a, w).

Definition raise {A} (e : PyExn) : M A := fun w => (Raise e, w).

Definition bind {A B} (c : M A) (k : A -> M B) : M B :=
  fun w =>
    match c w with
    | (Return a, w') => k a w'
    | (Raise e, w') => (Raise e, w')
    | (Diverge, w') => (Diverge, w')
    end.

Definition lift {A} (r : Res A) : M A :=
  match r with
  | Ok a => ret a
  | Err e => raise e
  end.

Declare Scope py_scope.
Delimit Scope py_scope with py.
Notation "x <- c ;; k" := (bind c (fun x => k))
  (at level 61, c at next level, right associativity) : py_scope.
Notation "' pat <- c ;; k" :=
  (bind c (fun x => match x with pat => k end))
  (at level 61, pat pattern, c at next level, right associativity) : py_scope.
Notation "c ;; k" := (bind c (fun _ => k))
  (at level 61, right associativity) : py_scope.

(** [time.time_ns()]. *)
Definition time_time_ns : M Z := fun w => (Return (time_ns w), w).

(** [_waitForData] keeps its times as floats: [time.time()] gives the clock
    as a float of seconds, [self.responseTimeout] is the number the session
    was made with, [+] adds two floats and [<] compares them.  A [PyFloat]
    has the floats and these four: [float_time ns] is what [time.time()]
    returns when the clock reads [ns], and [float_window rt] the float that
    [+] takes for a [responseTimeout] of [rt] nanoseconds. *)
Record PyFloat : Type := {
  pyfloat : Type;
  float_time : Z -> pyfloat;
  float_window : Z -> pyfloat;
  float_add : pyfloat -> pyfloat -> pyfloat;
  float_lt : pyfloat -> pyfloat -> bool
}.

(** [time.time()]. *)
Definition time_time (F : PyFloat) : M (pyfloat F) :=
  fun w => (Return (float_time F (time_ns w)), w).

(** The world once the random generator has given its next value. *)
Definition after_draw (w : World) : World :=
  {| time_ns := time_ns w; entropy := tl (entropy w); timeout := timeout w;
     inbox := inbox w; outbox := outbox w |}.

(** [random.randrange(n)]. *)
Definition random_randrange (n : Z) : M Z :=
  fun w =>
    match entropy w with
    | [] => (Return 0, after_draw w)
    | x :: _ => (Return (x mod n), after_draw w)
    end.

(** [sock.settimeout(t)]. *)
Definition settimeout (t : Z) : M unit :=
  fun w =>
    (Return tt,
     {| time_ns := time_ns w; entropy := entropy w; timeout := Some t;
        inbox := inbox w; outbox := outbox w |}).

(** The world after [data] has been sent to [addr]. *)
Definition after_send (w : World) (data : bytes) (addr : Addr) : World :=
  {| time_ns := time_ns w; entropy := entropy w; timeout := timeout w;
     inbox := inbox w; outbox := outbox w ++ [(data, addr)] |}.

(** [sock.sendto(data, addr)]. *)
Definition sendto (data : bytes) (addr : Addr) : M unit :=
  fun w => (Return tt, after_send w data addr).

(** The world after a receive that took [dt] and left [rest] to come. *)
Definition after_recv (w : World) (dt : Z) (rest : list (Z * bytes)) : World :=
  {| time_ns := time_ns w + dt; entropy := entropy w; timeout := timeout w;
     inbox := rest; outbox := outbox w |}.

(** [sock.recvfrom(65565)[0]]: the next datagram if it comes before the
    socket's timeout, [socket.timeout] otherwise; a blocking socket with
    nothing left to come never returns. *)
Definition recvfrom : M bytes :=
  fun w =>
    match inbox w, timeout w with
    | [], None => (Diverge, w)
    | [], Some t => (Raise socket_timeout, after_recv w t [])
    | (wait, data) :: rest, None =>
        (Return data, after_recv w (Z.max 0 wait) rest)
    | (wait, data) :: rest, Some t =>
        if wait <? t
        then (Return data, after_recv w (Z.max 0 wait) rest)
        else (Raise socket_timeout, after_recv w t ((wait - t, data) :: rest))
    end.

(** ** class OmniLogicAPI *)

(** [responseTimeout] is counted in nanoseconds, as the clock is;
    [float_window] gives the float the code adds to [start]. *)
Record OmniLogicAPI : Type := {
  controllerIpAndPort : Addr;
  senderPort : Z;
  responseTimeout : Z
}.

(** The 0.5 seconds of [sock.settimeout(0.5)]. *)
Definition RECV_SLICE : Z := 500000000.

(** The time the receives of a run of datagrams take. *)
Fixpoint total_wait (ds : list (Z * bytes)) : Z :=
  match ds with
  | [] => 0
  | d :: rest => Z.max 0 (fst d) + total_wait rest
  end.

Section Transport.

Local Open Scope py_scope.

(** [int(ns / (10**9))], as in [toBytes]. *)
Variable seconds_of_ns : Z -> Z.

(** What [ET.tostring(bodyElement, xml_declaration=True,
    encoding='unicode')] gives for the [Ack] request of [_sendAck]. *)
Variable Ack_reqBody : str.

(** The two XML lines of [_receiveFile]: [ET.fromstring] of the lead
    payload and [int] of the text of its [MsgBlockCount] parameter. *)
Variable MsgBlockCount : bytes -> Res Z.

(** [zlib.decompress]. *)
Variable zlib_decompress : bytes -> Res bytes.

(** [bytes.decode('utf-8')]. *)
Variable decode_utf8 : bytes -> Res str.

(** The floats of [_waitForData]. *)
Variable F : PyFloat.

Variable self : OmniLogicAPI.

(** [sock.sendto(request.toBytes(), self.controllerIpAndPort)]. *)
Definition send_request (request : OmniLogicRequest) : M unit :=
  now <- time_time_ns ;;
  wire <- lift (toBytes seconds_of_ns request now) ;;
  sendto wire (controllerIpAndPort self).

(** [OmniLogicAPI._recv]. *)
Definition _recv : M Fields :=
  resp <- recvfrom ;;
  lift (fromBytes resp).

(** The [while] loop of [_waitForData]; [fuel] bounds its iterations. *)
Fixpoint wait_loop (fuel : nat) (msgId : Z) (start : pyfloat F)
    (respMsgId : Z) : M Fields :=
  match fuel with
  | O => fun w => (Diverge, w)
  | S fuel' =>
      now <- time_time F ;;
      if negb (respMsgId =? msgId)
         && float_lt F now
              (float_add F start (float_window F (responseTimeout self)))
      then
        fun w =>
          match _recv w with
          | (Return (respMsgId', tstamp, vers, msgType, clientType,
                     res1, compressed, res3, data), w') =>
              if msgId =? respMsgId'
              then (Return (respMsgId', tstamp, vers, msgType, clientType,
                            res1, compressed, res3, data), w')
              else wait_loop fuel' msgId start respMsgId' w'
          | (Raise socket_timeout, w') =>
              wait_loop fuel' msgId start respMsgId w'
          | (Raise e, w') => (Raise e, w')
          | (Diverge, w') => (Diverge, w')
          end
      else raise Exception_
  end.

(** The clock reading up to which the loop is followed through receives
    that find the socket silent: one receive slice after the response
    window, by the clock's own count, of a call that started at [t0]. *)
Definition wait_limit (t0 : Z) : Z :=
  t0 + Z.max 0 (responseTimeout self) + RECV_SLICE.

(** The iterations the loop is followed for: one for each datagram still
    to come, one for each 0.5 second slice those datagrams take to come, and
    one for each slice up to [limit]. *)
Definition wait_budget (limit : Z) (w : World) : nat :=
  length (inbox w)
  + Z.to_nat (total_wait (inbox w) / RECV_SLICE)
  + Z.to_nat (Z.max 0 ((limit - time_ns w) / RECV_SLICE + 1)).

(** [OmniLogicAPI._waitForData].  Its loop is followed for [wait_budget]
    iterations; a loop whose deadline test still passes later than that,
    more than a receive slice after the response window by the clock's
    count, is reported as [Diverge]. *)
Definition _waitForData (msgId : Z) : M Fields :=
  let respMsgId := -1 in
  start <- time_time F ;;
  settimeout RECV_SLICE ;;
  fun w =>
    wait_loop (S (wait_budget (wait_limit (time_ns w)) w))
              msgId start respMsgId w.

(** [OmniLogicAPI._sendRequest]. *)
Definition _sendRequest (msgType : Z) (extraData : str) : M unit :=
  msgId <- random_randrange (2 ^ 32) ;;
  let clientType := match extraData with [] => 1 | _ => 0 end in
  let extraData :=
    extraData ++ match extraData with [] => [] | _ => [0%N] end in
  request <- lift (OmniLogicRequest_init msgId msgType extraData clientType) ;;
  send_request request ;;
  _waitForData msgId ;;
  ret tt.

(** [OmniLogicAPI._sendAck]. *)
Definition _sendAck (msgId : Z) : M unit :=
  let reqBody := Ack_reqBody in
  request <- lift (OmniLogicRequest_init msgId XMLACK_MESSAGE_TYPE reqBody 0) ;;
  send_request request.

(** The [for _ in range(blockCount)] loop of [_receiveFile]. *)
Fixpoint receive_blocks (blockCount : nat) (retval : bytes) : M bytes :=
  match blockCount with
  | O => ret retval
  | S remaining =>
      '(msgId, _, _, msgType, _, _, _, _, data) <- _recv ;;
      _sendAck msgId ;;
      receive_blocks remaining (retval ++ skipn 8 data)
  end.

(** [_receiveFile] up to the decompression: the flag [msgCompressed] and
    the bytes assembled in [retval]. *)
Definition _receiveFile_assemble : M (bool * bytes) :=
  '(msgId, _, _, msgType, _, _, compressed, _, data) <- _recv ;;
  _sendAck msgId ;;
  let msgCompressed :=
    (compressed =? 1)
    || existsb (Z.eqb msgType) [MSP_TELEMETRYUPDATE_MESSAGE_TYPE] in
  if msgType =? MSP_LEADMESSAGE_MESSAGE_TYPE then
    blockCount <- lift (MsgBlockCount (removelast data)) ;;
    retval <- receive_blocks (Z.to_nat blockCount) [] ;;
    ret (msgCompressed, retval)
  else if msgCompressed then
    ret (msgCompressed, data)
  else
    ret (msgCompressed, skipn 8 data).

(** [OmniLogicAPI._receiveFile]; [bytes.fromhex(retval.hex())] gives
    [retval] back. *)
Definition _receiveFile : M str :=
  '(msgCompressed, retval) <- _receiveFile_assemble ;;
  retval <- (if msgCompressed : bool
             then lift (zlib_decompress retval)
             else ret retval) ;;
  lift (decode_utf8 retval).

(** [OmniLogicAPI.getSock]: a new socket is blocking. *)
Definition getSock : M unit :=
  fun w =>
    (Return tt,
     {| time_ns := time_ns w; entropy := entropy w; timeout := None;
        inbox := inbox w; outbox := outbox w |}).

(** The body shared by [getAlarmList], [getConfig], [getTelemetry],
    [getFilterDiagnostics] and [getLogConfig]: [reqBody] is the request
    text they serialise (empty for [getLogConfig]). *)
Definition exchange (msgType : Z) (reqBody : str) : M str :=
  getSock ;;
  _sendRequest msgType reqBody ;;
  data <- _receiveFile ;;
  ret data.

(** [OmniLogicAPI.getLogConfig]. *)
Definition getLogConfig : M str :=
  exchange REQUEST_LOG_CONFIG_MESSAGE_TYPE [].

End Transport.

(** ** The commands that expect no response text *)

Definition SET_FILTER_SPEED_MESSAGE_TYPE : Z := 9.
Definition SET_EQUIPMENT_MESSAGE_TYPE : Z := 164.
Definition SET_STANDALONE_LIGHT_SHOW_MESSAGE_TYPE : Z := 308.

Section Commands.

Local Open Scope py_scope.

Variable seconds_of_ns : Z -> Z.
Variable F : PyFloat.
Variable self : OmniLogicAPI.

(** The body shared by [setEquipment], [setFilterSpeed] and
    [setLightShow]: [reqBody] is the request text they serialise; they
    send it and return nothing. *)
Definition command (msgType : Z) (reqBody : str) : M unit :=
  getSock ;;
  _sendRequest seconds_of_ns F self msgType reqBody.

(** [OmniLogicAPI.setEquipment], on the text it has serialised. *)
Definition setEquipment (reqBody : str) : M unit :=
  command SET_EQUIPMENT_MESSAGE_TYPE reqBody.

(** [OmniLogicAPI.setFilterSpeed], on the text it has serialised. *)
Definition setFilterSpeed (reqBody : str) : M unit :=
  command SET_FILTER_SPEED_MESSAGE_TYPE reqBody.

(** [OmniLogicAPI.setLightShow], on the text it has serialised. *)
Definition setLightShow (reqBody : str) : M unit :=
  command SET_STANDALONE_LIGHT_SHOW_MESSAGE_TYPE reqBody.

End Commands.

(** ** Notions the statements use *)

(** The 24 bytes [struct.pack] lays out for a header. *)
Definition header_bytes (h : Header) : bytes :=
  let '(msgId, tstamp, vers, msgType, clientType, res1, compressed, res3) := h in
  be_bytes 4 msgId ++ be_bytes 8 tstamp ++ vers ++ be_bytes 4 msgType
  ++ be_bytes 1 clientType ++ be_bytes 1 res1 ++ be_bytes 1 compressed
  ++ be_bytes 1 res3.

(** The fields fit the widths of the format. *)
Definition header_in_range (h : Header) : Prop :=
  let '(msgId, tstamp, vers, msgType, clientType, res1, compressed, res3) := h in
  0 <= msgId < 2 ^ 32 /\ 0 <= tstamp < 2 ^ 64 /\ length vers = 4%nat
  /\ 0 <= msgType < 2 ^ 32 /\ 0 <= clientType < 2 ^ 8
  /\ 0 <= res1 < 2 ^ 8 /\ 0 <= compressed < 2 ^ 8 /\ 0 <= res3 < 2 ^ 8.

(** The message id, the message type and the payload of a decoded frame. *)
Definition fields_msgId (f : Fields) : Z :=
  let '(msgId, _, _, _, _, _, _, _, _) := f in msgId.

Definition fields_msgType (f : Fields) : Z :=
  let '(_, _, _, msgType, _, _, _, _, _) := f in msgType.

Definition fields_compressed (f : Fields) : Z :=
  let '(_, _, _, _, _, _, compressed, _, _) := f in compressed.

Definition fields_data (f : Fields) : bytes :=
  let '(_, _, _, _, _, _, _, _, data) := f in data.

(** The deadline test of the wait loop,
    [time.time() < start + self.responseTimeout], in a call that took
    [start] when the clock read [t0], made when the clock reads [now]. *)
Definition window_open (F : PyFloat) (self : OmniLogicAPI) (t0 now : Z) : bool :=
  float_lt F (float_time F now)
    (float_add F (float_time F t0) (float_window F (responseTimeout self))).

(** The reading [t'] is the reading [t0] itself, or comes at most one
    receive slice after a reading, not before [t0], at which the deadline
    test of a call started at [t0] passes. *)
Definition one_slice_past (F : PyFloat) (self : OmniLogicAPI) (t0 t' : Z) : Prop :=
  t' = t0
  \/ exists t, t0 <= t /\ window_open F self t0 t = true
               /\ t <= t' <= t + RECV_SLICE.

(** The clock readings at which the loop makes its deadline test while [n]
    receives in a row, the first at [now], find the socket silent. *)
Fixpoint slice_readings (n : nat) (now : Z) : list Z :=
  match n with
  | O => []
  | S k => now :: slice_readings k (now + RECV_SLICE)
  end.

(** The receives that time out before a datagram that takes [wait] to come
    is read. *)
Definition slices_before (wait : Z) : nat := Z.to_nat (wait / RECV_SLICE).

(** The clock readings at which the loop makes its deadline test while it
    reads the datagrams [ds], from [now] on: for each datagram one reading
    before each receive that times out and one before the receive that
    reads it. *)
Fixpoint readings (now : Z) (ds : list (Z * bytes)) : list Z :=
  match ds with
  | [] => []
  | d :: rest =>
      slice_readings (S (slices_before (fst d))) now
      ++ readings (now + Z.max 0 (fst d)) rest
  end.

(** A datagram that decodes to a frame whose id is not [msgId]. *)
Definition stray (msgId : Z) (d : Z * bytes) : Prop :=
  exists f, fromBytes (snd d) = Ok f /\ fields_msgId f <> msgId.

(** Nothing of [late] can be read within [limit] from now: it is empty or its
    first datagram takes at least that long. *)
Definition arrives_after (limit : Z) (late : list (Z * bytes)) : Prop :=
  match late with
  | [] => True
  | d :: _ => limit <= fst d
  end.

(** The socket hands over a datagram that takes [wait] to come. *)
Definition readable (t : option Z) (wait : Z) : Prop :=
  match t with
  | None => True
  | Some t => wait < t
  end.

(** What [fromBytes] returns for a datagram of 24 bytes or more. *)
Definition decoded (data : bytes) : Fields :=
  let '(msgId, tstamp, vers, msgType, clientType, res1, compressed, res3) :=
    unpack_fields (firstn 24 data) in
  (msgId, tstamp, vers, msgType, clientType, res1, compressed, res3,
   skipn 24 data).

(** The bytes of the version literal "1.19". *)
Definition VERSION_BYTES : bytes := [x31; x2e; x31; x39].

Section AckFrames.

Variable seconds_of_ns : Z -> Z.
Variable ackBytes : bytes.
Variable addr : Addr.

(** The acknowledgment of the frame with id [msgId], sent at [now]. *)
Definition ack_wire (msgId now : Z) : bytes :=
  header_bytes (msgId, seconds_of_ns now, VERSION_BYTES,
                XMLACK_MESSAGE_TYPE, 0, 0, 0, 0) ++ ackBytes.

(** One acknowledgment for each of [frames], read one after the other
    from [now] on, each sent when its frame has been read. *)
Fixpoint acks_for (now : Z) (frames : list (Z * bytes)) : list (bytes * Addr) :=
  match frames with
  | [] => []
  | d :: rest =>
      let now' := now + Z.max 0 (fst d) in
      (ack_wire (fields_msgId (decoded (snd d))) now', addr)
      :: acks_for now' rest
  end.

(** The world once [_receiveFile] has read and acknowledged its first
    datagram. *)
Definition after_first (w : World) (wait : Z) (data : bytes)
    (more : list (Z * bytes)) : World :=
  after_send (after_recv w (Z.max 0 wait) more)
    (ack_wire (fields_msgId (decoded data)) (time_ns w + Z.max 0 wait))
    addr.

End AckFrames.

(** The payloads of block frames, each without its 8-byte sub-header. *)
Definition block_payloads (blocks : list (Z * bytes)) : bytes :=
  concat (map (fun d => skipn 8 (fields_data (decoded (snd d)))) blocks).

(** A datagram the socket hands over and [fromBytes] can decode. *)
Definition available (t : option Z) (d : Z * bytes) : Prop :=
  readable t (fst d) /\ (24 <= length (snd d))%nat.

(** The flag [msgCompressed] that [_receiveFile] computes from a frame. *)
Definition msgCompressed_of (f : Fields) : bool :=
  (fields_compressed f =? 1)
  || (fields_msgType f =? MSP_TELEMETRYUPDATE_MESSAGE_TYPE).

(** [sent] is an acknowledgment of [frame]: a frame to [addr] that carries
    the id of [frame], the type [XMLACK_MESSAGE_TYPE], client type 0 and the
    encoded [Ack] request as payload. *)
Definition is_ack_of (ackBytes : bytes) (addr : Addr) (frame : Z * bytes)
    (sent : bytes * Addr) : Prop :=
  snd sent = addr
  /\ exists tstamp,
       fromBytes (fst sent)
       = Ok (fields_msgId (decoded (snd frame)), tstamp, VERSION_BYTES,
             XMLACK_MESSAGE_TYPE, 0, 0, 0, 0, ackBytes).

(** The message id [_sendRequest] draws in [w]. *)
Definition drawn_id (w : World) : Z :=
  match entropy w with
  | [] => 0
  | x :: _ => x mod 2 ^ 32
  end.

(** The request frame [_sendRequest] sends in [w] for the text [reqBody],
    whose UTF-8 bytes are [body]. *)
Definition request_wire (seconds_of_ns : Z -> Z) (w : World) (msgType : Z)
    (reqBody : str) (body : bytes) : bytes :=
  header_bytes (drawn_id w, seconds_of_ns (time_ns w), VERSION_BYTES, msgType,
                match reqBody with [] => 1 | _ => 0 end, 0, 0, 0)
  ++ match reqBody with [] => [] | _ => body ++ [x00] end.

(** A block frame given by the time it takes to come, its header fields
    and its payload. *)
Definition block_datagram (b : Z * Header * bytes) : Z * bytes :=
  let '(wait, h, payload) := b in (wait, header_bytes h ++ payload).

(** A pure result as the outcome of a call. *)
Definition outcome_of {A} (r : Res A) : Outcome A :=
  match r with
  | Ok a => Return a
  | Err e => Raise e
  end.

(** What [_receiveFile] makes of a frame that is not a lead message. *)
Definition short_response (zlib_decompress : bytes -> Res bytes)
    (decode_utf8 : bytes -> Res str) (f : Fields) : Res str :=
  if msgCompressed_of f
  then (plain <~ zlib_decompress (fields_data f); decode_utf8 plain)%res
  else decode_utf8 (skipn 8 (fields_data f)).


(** ** Sample values *)

Definition request_sample : OmniLogicRequest :=
  {| msgId := 305419896; msgType := 300; clientType := 1;
     extraData := [x41; x00]; version := [x31; x2e; x31; x39] |}.

(** A frame as the controller would send it. *)
Definition frame_sample (msgId msgType compressed : Z) (payload : bytes) : bytes :=
  header_bytes (msgId, 1700000000, [x31; x2e; x31; x39], msgType, 0, 0,
                compressed, 0) ++ payload.

Definition api_sample : OmniLogicAPI :=
  {| controllerIpAndPort := ("192.168.1.10"%string, 10444);
     senderPort := 10444;
     responseTimeout := 5000000000 |}.

(** Two frames with other ids, the second after a silent slice, then the
    frame with id 7. *)
Definition world_strays : World :=
  {| time_ns := 1700000000000000000;
     entropy := [];
     timeout := None;
     inbox := [(0, frame_sample 5 ACK_MESSAGE_TYPE 0 []);
               (600000000, frame_sample 6 ACK_MESSAGE_TYPE 0 []);
               (100, frame_sample 7 ACK_MESSAGE_TYPE 0 [])];
     outbox := [] |}.

(** A session that waits 2.2 seconds, and a frame with id 7 that takes 2.4
    seconds to come. *)
Definition api_short : OmniLogicAPI :=
  {| controllerIpAndPort := ("192.168.1.10"%string, 10444);
     senderPort := 10444;
     responseTimeout := 2200000000 |}.

Definition world_late : World :=
  {| time_ns := 1700000000000000000;
     entropy := [];
     timeout := None;
     inbox := [(2400000000, frame_sample 7 ACK_MESSAGE_TYPE 0 [])];
     outbox := [] |}.

(** Stand-ins for the library functions, right on the inputs the samples
    hold. *)

(** [int(ns / (10**9))] for the clock readings of the samples. *)
Definition seconds_sample (ns : Z) : Z := (ns / 10 ^ 9) mod 2 ^ 64.

(** The floats of [_waitForData] as IEEE 754 doubles: [double_of_Z] is the
    double nearest to an integer; [time.time()] divides the clock's
    nanoseconds, as a double, by [1e9]; a [responseTimeout] of so many
    nanoseconds is the double nearest to its seconds; [+] and [<] are
    those of doubles. *)
Definition double_of_Z (z : Z) : PrimFloat.float :=
  FloatOps.SF2Prim (SpecFloat.binary_normalize 53 1024 z 0 false).

Definition binary64 : PyFloat :=
  {| pyfloat := PrimFloat.float;
     float_time := fun ns =>
       PrimFloat.div (double_of_Z ns) (double_of_Z (10 ^ 9));
     float_window := fun rt =>
       PrimFloat.div (double_of_Z rt) (double_of_Z (10 ^ 9));
     float_add := PrimFloat.add;
     float_lt := PrimFloat.ltb |}.

(** The serialised [Ack] request on a UTF-8 locale. *)
Definition Ack_reqBody_sample : str :=
  literal "<?xml version='1.0' encoding='UTF-8'?>" ++ [10%N]
  ++ literal "<Request xmlns=" ++ [34%N]
  ++ literal "http://nextgen.hayward.com/api" ++ [34%N]
  ++ literal "><Name>Ack</Name></Request>".

Definition Ack_bytes_sample : bytes :=
  match utf8_encode Ack_reqBody_sample with
  | Some b => b
  | None => []
  end.

Fixpoint bytes_eqb (a b : bytes) : bool :=
  match a, b with
  | [], [] => true
  | x :: a', y :: b' => Byte.eqb x y && bytes_eqb a' b'
  | _, _ => false
  end.

(** A lead payload that announces two blocks. *)
Definition lead_xml_sample : bytes :=
  list_byte_of_string
    "<Response><Parameters><Parameter name='MsgBlockCount' dataType='int'>2</Parameter></Parameters></Response>".

(** The XML lines of [_receiveFile] on [lead_xml_sample]. *)
Definition MsgBlockCount_sample (xml : bytes) : Res Z :=
  if bytes_eqb xml lead_xml_sample then Ok 2 else Err xml_error.

(** [zlib.decompress] on bytes that are no zlib stream. *)
Definition zlib_decompress_sample (data : bytes) : Res bytes :=
  Err zlib_error.

(** [bytes.decode('utf-8')] on ASCII bytes. *)
Definition decode_utf8_sample (data : bytes) : Res str :=
  if forallb (fun b => Z_of_byte b <? 128) data
  then Ok (map Byte.to_N data)
  else Err UnicodeDecodeError.

(** The 8 bytes that precede the data of a block. *)
Definition subheader_sample : bytes :=
  [x00; x00; x00; x01; x00; x00; x00; x02].

(** A lead frame and the two blocks it announces, read by a socket whose
    timeout [_waitForData] has set. *)
Definition world_lead : World :=
  {| time_ns := 1700000000000000000;
     entropy := [];
     timeout := Some RECV_SLICE;
     inbox := [(0, frame_sample 9 MSP_LEADMESSAGE_MESSAGE_TYPE 0
                     (lead_xml_sample ++ [x00]));
               (10, frame_sample 10 MSP_BLOCKMESSAGE_MESSAGE_TYPE 0
                      (subheader_sample ++ [x41; x42]));
               (20, frame_sample 11 MSP_BLOCKMESSAGE_MESSAGE_TYPE 0
                      (subheader_sample ++ [x43; x44]))];
     outbox := [] |}.

(** The controller's frame with the id of the request, then a response
    frame with an id of its own and the text "OK" after its sub-header. *)
Definition world_unmatched : World :=
  {| time_ns := 1700000000000000000;
     entropy := [7];
     timeout := None;
     inbox := [(0, frame_sample 7 ACK_MESSAGE_TYPE 0 []);
               (0, frame_sample 9 REQUEST_LOG_CONFIG_MESSAGE_TYPE 0
                     (subheader_sample ++ [x4f; x4b]))];
     outbox := [] |}.

(** A response frame flagged as compressed whose payload is no zlib
    stream. *)
Definition world_compressed : World :=
  {| time_ns := 1700000000000000000;
     entropy := [];
     timeout := Some RECV_SLICE;
     inbox := [(0, frame_sample 9 GETTELEMETRY_MESSAGE_TYPE 1 [x41; x42])];
     outbox := [] |}.

(** The request will draw id 7; a frame with id 5 comes, and a frame with
    id 7 that takes 6 seconds. *)
Definition world_silent : World :=
  {| time_ns := 1700000000000000000;
     entropy := [7];
     timeout := None;
     inbox := [(700000000, frame_sample 5 ACK_MESSAGE_TYPE 0 []);
               (6000000000, frame_sample 7 ACK_MESSAGE_TYPE 0 [])];
     outbox := [] |}.

(** Two datagrams in the block loop: a block frame, and a frame of another
    type with an unrelated id. *)
Definition blocks_sample : list (Z * Header * bytes) :=
  [(10, (10, 1700000000, VERSION_BYTES, MSP_BLOCKMESSAGE_MESSAGE_TYPE,
         0, 0, 0, 0), subheader_sample ++ [x41; x42]);
   (20, (4242, 1700000000, VERSION_BYTES, GETTELEMETRY_MESSAGE_TYPE,
         0, 0, 0, 0), subheader_sample ++ [x43; x44])].

Definition world_blocks : World :=
  {| time_ns := 1700000000000000000;
     entropy := [];
     timeout := Some RECV_SLICE;
     inbox := map block_datagram blocks_sample;
     outbox := [] |}.

(** Further samples: requests that do not fit the header, datagrams that
    are no frames, responses cut short. *)

Definition request_wide : OmniLogicRequest :=
  {| msgId := 2 ^ 32; msgType := 300; clientType := 1;
     extraData := []; version := VERSION_BYTES |}.

Definition request_short_version : OmniLogicRequest :=
  {| msgId := 7; msgType := 300; clientType := 1;
     extraData := [x41]; version := [x31; x2e] |}.


(** A frame with id 5, then a datagram of two bytes. *)
Definition world_malformed : World :=
  {| time_ns := 1700000000000000000;
     entropy := [];
     timeout := None;
     inbox := [(0, frame_sample 5 ACK_MESSAGE_TYPE 0 []);
               (100, [x41; x42])];
     outbox := [] |}.

(** A datagram of two bytes where [_receiveFile] expects a frame. *)
Definition world_garbage : World :=
  {| time_ns := 1700000000000000000;
     entropy := [];
     timeout := Some RECV_SLICE;
     inbox := [(0, [x41; x42]);
               (0, frame_sample 9 GETTELEMETRY_MESSAGE_TYPE 0
                     (subheader_sample ++ [x4f; x4b]))];
     outbox := [] |}.

(** A lead frame that announces two blocks, and only one block. *)
Definition world_lead_short : World :=
  {| time_ns := 1700000000000000000;
     entropy := [];
     timeout := Some RECV_SLICE;
     inbox := [(0, frame_sample 9 MSP_LEADMESSAGE_MESSAGE_TYPE 0
                     (lead_xml_sample ++ [x00]));
               (10, frame_sample 10 MSP_BLOCKMESSAGE_MESSAGE_TYPE 0
                      (subheader_sample ++ [x41; x42]))];
     outbox := [] |}.

(** A response whose payload has 4 bytes. *)
Definition world_tiny : World :=
  {| time_ns := 1700000000000000000;
     entropy := [];
     timeout := Some RECV_SLICE;
     inbox := [(0, frame_sample 9 GETTELEMETRY_MESSAGE_TYPE 0
                     [x41; x42; x43; x44])];
     outbox := [] |}.

(** A lead payload that announces no block, and the XML lines on it and on
    [lead_xml_sample]. *)
Definition lead_xml_zero : bytes :=
  list_byte_of_string
    "<Response><Parameters><Parameter name='MsgBlockCount' dataType='int'>0</Parameter></Parameters></Response>".

Definition MsgBlockCount_table (xml : bytes) : Res Z :=
  if bytes_eqb xml lead_xml_zero then Ok 0 else MsgBlockCount_sample xml.

Definition world_lead_zero : World :=
  {| time_ns := 1700000000000000000;
     entropy := [];
     timeout := Some RECV_SLICE;
     inbox := [(0, frame_sample 9 MSP_LEADMESSAGE_MESSAGE_TYPE 0
                     (lead_xml_zero ++ [x00]));
               (10, frame_sample 10 MSP_BLOCKMESSAGE_MESSAGE_TYPE 0
                      (subheader_sample ++ [x41; x42]))];
     outbox := [] |}.

(** A lead frame whose payload is no XML. *)
Definition world_lead_bad : World :=
  {| time_ns := 1700000000000000000;
     entropy := [];
     timeout := Some RECV_SLICE;
     inbox := [(0, frame_sample 9 MSP_LEADMESSAGE_MESSAGE_TYPE 0
                     [x41; x42; x00]);
               (10, frame_sample 10 MSP_BLOCKMESSAGE_MESSAGE_TYPE 0
                      (subheader_sample ++ [x41; x42]))];
     outbox := [] |}.

(** The request will draw id 7; two frames with other ids come, then the
    frame with id 7, then one more frame. *)
Definition world_command : World :=
  {| time_ns := 1700000000000000000;
     entropy := [7];
     timeout := None;
     inbox := [(0, frame_sample 5 ACK_MESSAGE_TYPE 0 []);
               (600000000, frame_sample 6 ACK_MESSAGE_TYPE 0 []);
               (100, frame_sample 7 ACK_MESSAGE_TYPE 0 []);
               (0, frame_sample 9 GETTELEMETRY_MESSAGE_TYPE 0
                     (subheader_sample ++ [x4f; x4b]))];
     outbox := [] |}.

(** The request will draw id 7; the response frame, with id 9, comes before
    the frame with id 7, and nothing after. *)
Definition world_reordered : World :=
  {| time_ns := 1700000000000000000;
     entropy := [7];
     timeout := None;
     inbox := [(0, frame_sample 9 GETTELEMETRY_MESSAGE_TYPE 0
                     (subheader_sample ++ [x4f; x4b]));
               (0, frame_sample 7 ACK_MESSAGE_TYPE 0 [])];
     outbox := [] |}.

(** A session that waits 0.5 seconds; a frame with id 5 that is read one
    nanosecond before the 0.5 seconds are over, and the frame with id 7
    right behind it. *)
Definition api_half : OmniLogicAPI :=
  {| controllerIpAndPort := ("192.168.1.10"%string, 10444);
     senderPort := 10444;
     responseTimeout := 500000000 |}.

Definition world_edge : World :=
  {| time_ns := 1700000000000000000;
     entropy := [];
     timeout := None;
     inbox := [(499999999, frame_sample 5 ACK_MESSAGE_TYPE 0 []);
               (0, frame_sample 7 ACK_MESSAGE_TYPE 0 [])];
     outbox := [] |}.

(** A session that waits 0.50000015 seconds, started when the clock reads
    129 nanoseconds past a second; a frame with id 5 is read 0.5000002
    seconds later. *)
Definition api_odd : OmniLogicAPI :=
  {| controllerIpAndPort := ("192.168.1.10"%string, 10444);
     senderPort := 10444;
     responseTimeout := 500000150 |}.

Definition world_odd : World :=
  {| time_ns := 1700000000000000129;
     entropy := [];
     timeout := None;
     inbox := [(500000200, frame_sample 5 ACK_MESSAGE_TYPE 0 [])];
     outbox := [] |}.


(** * Theorems *)

(** ** Facts about the byte encodings *)

Lemma Z_of_byte_of_Z (z : Z) : Z_of_byte (byte_of_Z z) = z mod 256.
Proof.
  unfold Z_of_byte, byte_of_Z.
  assert (Hr : 0 <= z mod 256 < 256) by (apply Z.mod_pos_bound; lia).
  pose proof (Byte.to_of_N_option_map (Z.to_N (z mod 256))) as H.
  destruct (Byte.of_N (Z.to_N (z mod 256))) as [b|] eqn:E; simpl in H.
  - destruct (N.leb_spec (Z.to_N (z mod 256)) 255) as [_|Hgt].
    + injection H as ->. lia.
    + discriminate.
  - destruct (N.leb_spec (Z.to_N (z mod 256)) 255) as [Hle|Hgt].
    + discriminate.
    + lia.
Qed.

Lemma Z_of_byte_range (b : byte) : 0 <= Z_of_byte b < 256.
Proof.
  unfold Z_of_byte. pose proof (Byte.to_N_bounded b). lia.
Qed.

Lemma be_bytes_length (w : nat) (v : Z) : length (be_bytes w v) = w.
Proof. induction w as [|k IH]; simpl; [reflexivity | now rewrite IH]. Qed.

Lemma be_decode_be_bytes_mod (w : nat) (v : Z) :
  be_decode (be_bytes w v) = v mod 256 ^ Z.of_nat w.
Proof.
  induction w as [|k IH].
  - simpl. now rewrite Z.mod_1_r.
  - cbn [be_bytes be_decode].
    rewrite be_bytes_length, IH, Z_of_byte_of_Z.
    replace (Z.of_nat (S k)) with (Z.of_nat k + 1) by lia.
    rewrite Z.pow_add_r, Z.pow_1_r by lia.
    assert (Hp : 0 < 256 ^ Z.of_nat k) by (apply Z.pow_pos_nonneg; lia).
    rewrite (Z.rem_mul_r v (256 ^ Z.of_nat k) 256) by lia.
    lia.
Qed.

Lemma be_decode_be_bytes (w : nat) (v : Z) :
  0 <= v < 256 ^ Z.of_nat w -> be_decode (be_bytes w v) = v.
Proof.
  intro H. rewrite be_decode_be_bytes_mod. now apply Z.mod_small.
Qed.

Lemma pack_uint_ok (w : nat) (v : Z) :
  0 <= v < 256 ^ Z.of_nat w -> pack_uint w v = Ok (be_bytes w v).
Proof.
  intro H. unfold pack_uint.
  destruct (Z.leb_spec 0 v); [|lia].
  destruct (Z.ltb_spec v (256 ^ Z.of_nat w)); [reflexivity | lia].
Qed.

Lemma pack_4s_exact (s : bytes) : length s = 4%nat -> pack_4s s = s.
Proof.
  intro H. unfold pack_4s.
  rewrite firstn_app, H, Nat.sub_diag. simpl firstn at 2.
  rewrite app_nil_r. rewrite <- H. apply firstn_all.
Qed.

(** The layout on concrete values: the most significant byte first, and the
    UTF-8 forms of one, two, three and four bytes. *)
Example be_bytes_network_order :
  be_bytes 4 305419896 = [x12; x34; x56; x78]
  /\ be_decode [x12; x34; x56; x78] = 305419896.
Proof. split; reflexivity. Qed.

Example utf8_encode_forms :
  utf8_encode [65; 233; 8364; 128512]%N
  = Some [x41; xc3; xa9; xe2; x82; xac; xf0; x9f; x98; x80]
  /\ utf8_encode [55296%N] = None
  /\ utf8_encode (literal "1.19") = Some VERSION_BYTES.
Proof. repeat split; reflexivity. Qed.

(** ** The frame codec *)

Lemma firstn_exact {A} (n : nat) (l r : list A) :
  length l = n -> firstn n (l ++ r) = l.
Proof.
  intros <-. rewrite firstn_app, Nat.sub_diag, firstn_all. simpl.
  apply app_nil_r.
Qed.

Lemma skipn_exact {A} (n : nat) (l r : list A) :
  length l = n -> skipn n (l ++ r) = r.
Proof.
  intros <-. rewrite skipn_app, Nat.sub_diag, skipn_all. reflexivity.
Qed.

Lemma struct_pack_in_range (h : Header) :
  header_in_range h -> struct_pack h = Ok (header_bytes h).
Proof.
  destruct h as [[[[[[[i t] v] ty] c] r1] r2] r3].
  intros (Hi & Ht & Hv & Hty & Hc & H1 & H2 & H3).
  unfold struct_pack, header_bytes.
  rewrite (pack_uint_ok 4 i), (pack_uint_ok 8 t), (pack_uint_ok 4 ty),
    (pack_uint_ok 1 c), (pack_uint_ok 1 r1), (pack_uint_ok 1 r2),
    (pack_uint_ok 1 r3) by (simpl Z.of_nat; lia).
  cbn [Res_bind]. now rewrite pack_4s_exact.
Qed.

Lemma header_bytes_length (h : Header) :
  header_in_range h -> length (header_bytes h) = 24%nat.
Proof.
  destruct h as [[[[[[[i t] v] ty] c] r1] r2] r3].
  intros (_ & _ & Hv & _). unfold header_bytes.
  rewrite !length_app, !be_bytes_length, Hv. reflexivity.
Qed.

Lemma struct_unpack_header_bytes (h : Header) :
  header_in_range h -> struct_unpack (header_bytes h) = Ok h.
Proof.
  intro Hr. unfold struct_unpack.
  rewrite (header_bytes_length h Hr). cbn [HEADER_SIZE Nat.add Nat.eqb].
  destruct h as [[[[[[[i t] v] ty] c] r1] r2] r3].
  destruct Hr as (Hi & Ht & Hv & Hty & Hc & H1 & H2 & H3).
  destruct v as [|v0 [|v1 [|v2 [|v3 [|v4 v]]]]]; try discriminate Hv.
  cbn [header_bytes be_bytes app firstn skipn].
  pose proof (be_decode_be_bytes 4 i) as Ei.
  pose proof (be_decode_be_bytes 8 t) as Et.
  pose proof (be_decode_be_bytes 4 ty) as Ety.
  pose proof (be_decode_be_bytes 1 c) as Ec.
  pose proof (be_decode_be_bytes 1 r1) as E1.
  pose proof (be_decode_be_bytes 1 r2) as E2.
  pose proof (be_decode_be_bytes 1 r3) as E3.
  cbn [be_bytes] in Ei, Et, Ety, Ec, E1, E2, E3.
  unfold unpack_fields. cbn [header_bytes be_bytes app firstn skipn].
  rewrite Ei, Et, Ety, Ec, E1, E2, E3 by (simpl Z.of_nat; lia).
  reflexivity.
Qed.

Lemma fromBytes_header_bytes (h : Header) (payload : bytes) :
  header_in_range h ->
  fromBytes (header_bytes h ++ payload)
  = let '(msgId, tstamp, vers, msgType, clientType, res1, compressed, res3) := h in
    Ok (msgId, tstamp, vers, msgType, clientType, res1, compressed, res3, payload).
Proof.
  intro Hr. pose proof (header_bytes_length h Hr) as Hlen.
  unfold fromBytes. rewrite firstn_exact, skipn_exact by assumption.
  rewrite (struct_unpack_header_bytes h Hr).
  now destruct h as [[[[[[[i t] v] ty] c] r1] r2] r3].
Qed.

(** C1: encoding a request whose fields fit the header (32-bit id, 64-bit
    timestamp read from the clock, 4-byte version, 32-bit type, 8-bit client
    type, any payload) and decoding the result gives the same fields back:
    the first 24 bytes are the header in network order, the three bytes
    after the client type are written as zero and so decoded, and the
    payload comes back unchanged. *)
Theorem fromBytes_toBytes (seconds_of_ns : Z -> Z) (self : OmniLogicRequest)
    (clock : Z) :
  0 <= msgId self < 2 ^ 32 ->
  0 <= seconds_of_ns clock < 2 ^ 64 ->
  length (version self) = 4%nat ->
  0 <= msgType self < 2 ^ 32 ->
  0 <= clientType self < 2 ^ 8 ->
  exists wire,
    toBytes seconds_of_ns self clock = Ok wire
    /\ length (firstn 24 wire) = 24%nat
    /\ firstn 24 wire =
         be_bytes 4 (msgId self) ++ be_bytes 8 (seconds_of_ns clock)
         ++ version self ++ be_bytes 4 (msgType self)
         ++ be_bytes 1 (clientType self) ++ [x00; x00; x00]
    /\ skipn 24 wire = extraData self
    /\ fromBytes wire =
         Ok (msgId self, seconds_of_ns clock, version self, msgType self,
             clientType self, 0, 0, 0, extraData self).
Proof.
  intros Hi Ht Hv Hty Hc.
  set (h := (msgId self, seconds_of_ns clock, version self, msgType self,
             clientType self, 0, 0, 0) : Header).
  assert (Hr : header_in_range h) by (unfold h; cbn; lia).
  exists (header_bytes h ++ extraData self).
  pose proof (header_bytes_length h Hr) as Hlen.
  repeat split.
  - unfold toBytes. fold h. now rewrite (struct_pack_in_range h Hr).
  - now rewrite firstn_exact.
  - now rewrite firstn_exact.
  - now rewrite skipn_exact.
  - now rewrite (fromBytes_header_bytes h (extraData self) Hr).
Qed.

Lemma fromBytes_toBytes_witness :
  exists wire,
    toBytes (fun ns => ns / 10 ^ 9) request_sample 1700000000123456789 = Ok wire
    /\ length (firstn 24 wire) = 24%nat
    /\ firstn 24 wire =
         be_bytes 4 305419896 ++ be_bytes 8 (1700000000123456789 / 10 ^ 9)
         ++ [x31; x2e; x31; x39] ++ be_bytes 4 300
         ++ be_bytes 1 1 ++ [x00; x00; x00]
    /\ skipn 24 wire = [x41; x00]
    /\ fromBytes wire =
         Ok (305419896, 1700000000123456789 / 10 ^ 9, [x31; x2e; x31; x39],
             300, 1, 0, 0, 0, [x41; x00]).
Proof.
  apply (fromBytes_toBytes (fun ns => ns / 10 ^ 9) request_sample
           1700000000123456789); vm_compute; intuition discriminate.
Defined.

Lemma fromBytes_cases (data : bytes) :
  fromBytes data =
    if (length data <? 24)%nat
    then Err struct_error
    else Ok (decoded data).
Proof.
  unfold fromBytes, struct_unpack, decoded.
  rewrite length_firstn.
  destruct (Nat.ltb_spec (length data) 24) as [Hlt|Hge].
  - rewrite Nat.min_r by lia.
    destruct (Nat.eqb_spec (length data) HEADER_SIZE) as [E|_].
    + unfold HEADER_SIZE in E. simpl in E. lia.
    + reflexivity.
  - rewrite Nat.min_l by lia. reflexivity.
Qed.

(** C6: [fromBytes] raises [struct.error] on fewer than 24 bytes, and on 24
    bytes or more it returns the fields of the first 24 bytes together with
    the bytes from offset 24 on as payload. *)
Theorem fromBytes_length (data : bytes) :
  fromBytes data =
    if (length data <? 24)%nat
    then Err struct_error
    else
      let '(msgId, tstamp, vers, msgType, clientType, res1, compressed, res3) :=
        unpack_fields (firstn 24 data) in
      Ok (msgId, tstamp, vers, msgType, clientType, res1, compressed, res3,
          skipn 24 data).
Proof. exact (fromBytes_cases data). Qed.

(** ** The socket and the wait loop *)

Section TransportFacts.

Variable seconds_of_ns : Z -> Z.
Variable Ack_reqBody : str.
Variable MsgBlockCount : bytes -> Res Z.
Variable zlib_decompress : bytes -> Res bytes.
Variable decode_utf8 : bytes -> Res str.
Variable F : PyFloat.
Variable self : OmniLogicAPI.

Lemma fromBytes_error (data : bytes) (e : PyExn) :
  fromBytes data = Err e -> e = struct_error.
Proof.
  rewrite fromBytes_cases.
  destruct (length data <? 24)%nat.
  - now intros [= <-].
  - discriminate.
Qed.

(** The loop is over once the id matches or the deadline test fails. *)
Lemma wait_loop_expired (fuel : nat) (msgId t0 r : Z) (w : World) :
  r = msgId \/ window_open F self t0 (time_ns w) = false ->
  wait_loop F self (S fuel) msgId (float_time F t0) r w = (Raise Exception_, w).
Proof.
  intro H. cbn [wait_loop]. unfold bind, time_time.
  destruct H as [-> | H].
  - now rewrite Z.eqb_refl.
  - unfold window_open in H. now rewrite H, andb_false_r.
Qed.

(** A receive slice with no datagram: the loop goes round again. *)
Lemma wait_loop_quiet (fuel : nat) (msgId t0 r t : Z) (w : World) :
  r <> msgId -> window_open F self t0 (time_ns w) = true ->
  timeout w = Some t -> inbox w = [] ->
  wait_loop F self (S fuel) msgId (float_time F t0) r w
  = wait_loop F self fuel msgId (float_time F t0) r (after_recv w t []).
Proof.
  intros Hr Ht Hto Hin. cbn [wait_loop]. unfold bind at 1, time_time.
  unfold window_open in Ht. rewrite Ht.
  destruct (Z.eqb_spec r msgId) as [|_]; [contradiction|].
  cbn [negb andb]. unfold _recv, bind, recvfrom. now rewrite Hin, Hto.
Qed.

(** The next datagram comes after the slice: the loop goes round again. *)
Lemma wait_loop_late (fuel : nat) (msgId t0 r t wait : Z) (data : bytes)
    (rest : list (Z * bytes)) (w : World) :
  r <> msgId -> window_open F self t0 (time_ns w) = true ->
  timeout w = Some t -> inbox w = (wait, data) :: rest -> t <= wait ->
  wait_loop F self (S fuel) msgId (float_time F t0) r w
  = wait_loop F self fuel msgId (float_time F t0) r
      (after_recv w t ((wait - t, data) :: rest)).
Proof.
  intros Hr Ht Hto Hin Hw. cbn [wait_loop]. unfold bind at 1, time_time.
  unfold window_open in Ht. rewrite Ht.
  destruct (Z.eqb_spec r msgId) as [|_]; [contradiction|].
  cbn [negb andb]. unfold _recv, bind, recvfrom. rewrite Hin, Hto.
  destruct (Z.ltb_spec wait t); [lia | reflexivity].
Qed.

(** A datagram is read: a malformed one aborts the loop, a frame with the
    requested id is returned, any other frame is dropped. *)
Lemma wait_loop_got (fuel : nat) (msgId t0 r t wait : Z) (data : bytes)
    (rest : list (Z * bytes)) (w : World) :
  r <> msgId -> window_open F self t0 (time_ns w) = true ->
  timeout w = Some t -> inbox w = (wait, data) :: rest -> wait < t ->
  wait_loop F self (S fuel) msgId (float_time F t0) r w
  = match fromBytes data with
    | Ok f =>
        if msgId =? fields_msgId f
        then (Return f, after_recv w (Z.max 0 wait) rest)
        else wait_loop F self fuel msgId (float_time F t0) (fields_msgId f)
               (after_recv w (Z.max 0 wait) rest)
    | Err e => (Raise e, after_recv w (Z.max 0 wait) rest)
    end.
Proof.
  intros Hr Ht Hto Hin Hw. cbn [wait_loop]. unfold bind at 1, time_time.
  unfold window_open in Ht. rewrite Ht.
  destruct (Z.eqb_spec r msgId) as [|_]; [contradiction|].
  cbn [negb andb]. unfold _recv, bind, recvfrom. rewrite Hin, Hto.
  destruct (Z.ltb_spec wait t); [|lia].
  destruct (fromBytes data) as [f|e] eqn:E; cbn [lift ret raise].
  - destruct f as [[[[[[[[i ts] v] ty] c] r1] r2] r3] d]. reflexivity.
  - now rewrite (fromBytes_error data e E).
Qed.

Lemma after_recv_twice (w : World) (a b : Z) (i1 i2 : list (Z * bytes)) :
  after_recv (after_recv w a i1) b i2 = after_recv w (a + b) i2.
Proof. unfold after_recv. cbn. now rewrite Z.add_assoc. Qed.

(** What a receive leaves untouched, and where a decoded frame comes from. *)
Lemma _recv_inv (w w' : World) (o : Outcome Fields) :
  _recv w = (o, w') ->
  outbox w' = outbox w /\ entropy w' = entropy w /\ timeout w' = timeout w
  /\ (forall x, In x (map snd (inbox w')) -> In x (map snd (inbox w)))
  /\ (forall f, o = Return f ->
        exists data, In data (map snd (inbox w)) /\ fromBytes data = Ok f).
Proof.
  unfold _recv, bind, recvfrom.
  destruct (inbox w) as [|[wait data] rest] eqn:Hin;
    destruct (timeout w) as [t|] eqn:Hto.
  - intros [= <- <-]. cbn. repeat split; auto. intros f [=].
  - intros [= <- <-]. rewrite Hin. repeat split; auto. intros f [=].
  - destruct (wait <? t).
    + destruct (fromBytes data) as [f0|e] eqn:E; cbn [lift ret raise];
        intros [= <- <-]; cbn; repeat split; auto.
      * intros f [= <-]. exists data. auto.
      * intros f [=].
    + intros [= <- <-]. cbn. repeat split; auto. intros f [=].
  - destruct (fromBytes data) as [f0|e] eqn:E; cbn [lift ret raise];
      intros [= <- <-]; cbn; repeat split; auto.
    + intros f [= <-]. exists data. auto.
    + intros f [=].
Qed.

(** Whatever the loop returns carries the requested id and was read from
    the socket; the loop sends nothing. *)
Lemma wait_loop_sound (fuel : nat) (msgId : Z) (start : pyfloat F) :
  forall (r : Z) (w w' : World) (o : Outcome Fields),
    wait_loop F self fuel msgId start r w = (o, w') ->
    outbox w' = outbox w
    /\ (forall f, o = Return f ->
          fields_msgId f = msgId
          /\ exists data, In data (map snd (inbox w)) /\ fromBytes data = Ok f).
Proof.
  induction fuel as [|fuel IH]; intros r w w' o H.
  - cbn in H. injection H as <- <-. split; [reflexivity | intros f [=]].
  - cbn [wait_loop] in H. unfold bind at 1, time_time in H.
    destruct (negb (r =? msgId) && float_lt F _ _).
    + destruct (_recv w) as [o1 w1] eqn:E.
      destruct (_recv_inv w w1 o1 E) as (Hout & _ & _ & Hsub & Hfrom).
      destruct o1 as [f1|e|].
      * destruct f1 as [[[[[[[[i ts] v] ty] c] r1] r2] r3] d].
        destruct (Z.eqb_spec msgId i) as [->|Hne].
        -- injection H as <- <-. split; [assumption|].
           intros f [= <-]. split; [reflexivity | now apply Hfrom].
        -- destruct (IH _ _ _ _ H) as [Ho Hf]. split; [congruence|].
           intros f Ef. destruct (Hf f Ef) as (Hid & data & Hd & Hb).
           split; [assumption|]. exists data. auto.
      * destruct e; try (injection H as <- <-; split; [assumption | intros f [=]]).
        destruct (IH _ _ _ _ H) as [Ho Hf]. split; [congruence|].
        intros f Ef. destruct (Hf f Ef) as (Hid & data & Hd & Hb).
        split; [assumption|]. exists data. auto.
      * injection H as <- <-. split; [assumption | intros f [=]].
    + cbn in H. injection H as <- <-. split; [reflexivity | intros f [=]].
Qed.

Lemma total_wait_nonneg (ds : list (Z * bytes)) : 0 <= total_wait ds.
Proof. induction ds as [|d ds IH]; cbn [total_wait]; lia. Qed.

Lemma total_wait_app (a b : list (Z * bytes)) :
  total_wait (a ++ b) = total_wait a + total_wait b.
Proof.
  induction a as [|d a IH]; cbn [total_wait app]; [reflexivity | rewrite IH; lia].
Qed.

(** Each pass of the loop uses up one of the iterations it is followed
    for: a silent slice, as long as the clock is not past [limit]; a slice
    spent on a datagram that is still to come; a datagram read. *)
Lemma wait_budget_quiet (limit : Z) (w : World) :
  inbox w = [] -> time_ns w <= limit ->
  (wait_budget limit (after_recv w RECV_SLICE []) < wait_budget limit w)%nat.
Proof.
  intros Hin Ht. unfold wait_budget, after_recv. cbn [inbox time_ns].
  rewrite Hin. cbn [length total_wait]. unfold RECV_SLICE.
  replace (limit - (time_ns w + 500000000))
    with ((limit - time_ns w) + (-1) * 500000000) by lia.
  rewrite Z.div_add by lia.
  assert (0 <= (limit - time_ns w) / 500000000) by (apply Z.div_pos; lia).
  lia.
Qed.

Lemma wait_budget_late (limit wait : Z) (data : bytes)
    (rest : list (Z * bytes)) (w : World) :
  inbox w = (wait, data) :: rest -> RECV_SLICE <= wait ->
  (wait_budget limit
     (after_recv w RECV_SLICE (((wait - RECV_SLICE)%Z, data) :: rest))
   < wait_budget limit w)%nat.
Proof.
  intros Hin Hw. unfold wait_budget, after_recv. cbn [inbox time_ns].
  rewrite Hin. cbn [length total_wait fst].
  pose proof (total_wait_nonneg rest) as Hnn.
  replace (Z.max 0 (wait - RECV_SLICE) + total_wait rest)
    with ((Z.max 0 wait + total_wait rest) + (-1) * RECV_SLICE)
    by (unfold RECV_SLICE in *; lia).
  rewrite Z.div_add by (unfold RECV_SLICE; lia).
  assert (1 <= (Z.max 0 wait + total_wait rest) / RECV_SLICE)
    by (apply Z.div_le_lower_bound; unfold RECV_SLICE in *; lia).
  assert ((limit - (time_ns w + RECV_SLICE)) / RECV_SLICE
          <= (limit - time_ns w) / RECV_SLICE)
    by (apply Z.div_le_mono; unfold RECV_SLICE; lia).
  lia.
Qed.

Lemma wait_budget_read (limit wait : Z) (data : bytes)
    (rest : list (Z * bytes)) (w : World) :
  inbox w = (wait, data) :: rest ->
  (wait_budget limit (after_recv w (Z.max 0 wait) rest)
   < wait_budget limit w)%nat.
Proof.
  intros Hin. unfold wait_budget, after_recv. cbn [inbox time_ns].
  rewrite Hin. cbn [length total_wait fst].
  pose proof (total_wait_nonneg rest) as Hnn.
  assert (0 <= total_wait rest / RECV_SLICE)
    by (apply Z.div_pos; unfold RECV_SLICE; lia).
  assert (total_wait rest / RECV_SLICE
          <= (Z.max 0 wait + total_wait rest) / RECV_SLICE)
    by (apply Z.div_le_mono; unfold RECV_SLICE; lia).
  assert ((limit - (time_ns w + Z.max 0 wait)) / RECV_SLICE
          <= (limit - time_ns w) / RECV_SLICE)
    by (apply Z.div_le_mono; unfold RECV_SLICE; lia).
  lia.
Qed.

(** The readings of the deadline test, datagram by datagram. *)
Lemma slices_before_late (wait : Z) :
  RECV_SLICE <= wait ->
  slices_before wait = S (slices_before (wait - RECV_SLICE)).
Proof.
  intro H. unfold slices_before.
  replace wait with ((wait - RECV_SLICE) + 1 * RECV_SLICE) at 1 by lia.
  rewrite Z.div_add by (unfold RECV_SLICE; lia).
  assert (0 <= (wait - RECV_SLICE) / RECV_SLICE)
    by (apply Z.div_pos; unfold RECV_SLICE in *; lia).
  lia.
Qed.

Lemma readings_app (a b : list (Z * bytes)) :
  forall now,
    readings now (a ++ b) = readings now a ++ readings (now + total_wait a) b.
Proof.
  induction a as [|d a IH]; intro now; cbn [app readings total_wait].
  - now rewrite Z.add_0_r.
  - now rewrite IH, <- app_assoc, Z.add_assoc.
Qed.

(** A datagram that is read while the deadline test passes: the loop has
    it decoded and goes on, returns or stops on what [fromBytes] makes of
    it. *)
Lemma wait_loop_reads (msgId t0 limit : Z) (data : bytes)
    (rest : list (Z * bytes)) (fuel : nat) :
  forall (wait r : Z) (w : World),
    r <> msgId ->
    timeout w = Some RECV_SLICE ->
    inbox w = (wait, data) :: rest ->
    forallb (window_open F self t0)
      (slice_readings (S (slices_before wait)) (time_ns w)) = true ->
    (wait_budget limit w < fuel)%nat ->
    exists fuel',
      wait_loop F self fuel msgId (float_time F t0) r w
      = match fromBytes data with
        | Ok f =>
            if msgId =? fields_msgId f
            then (Return f, after_recv w (Z.max 0 wait) rest)
            else wait_loop F self fuel' msgId (float_time F t0)
                   (fields_msgId f) (after_recv w (Z.max 0 wait) rest)
        | Err e => (Raise e, after_recv w (Z.max 0 wait) rest)
        end
      /\ (wait_budget limit (after_recv w (Z.max 0 wait) rest) < fuel')%nat.
Proof.
  induction fuel as [|fuel IH]; intros wait r w Hr Hto Hin Hop Hb; [lia|].
  cbn [slice_readings forallb] in Hop.
  apply andb_prop in Hop. destruct Hop as [Hnow Hop].
  destruct (Z_lt_le_dec wait RECV_SLICE) as [Hw|Hw].
  - rewrite (wait_loop_got fuel msgId t0 r RECV_SLICE wait data rest w)
      by assumption.
    exists fuel. split; [reflexivity|].
    pose proof (wait_budget_read limit wait data rest w Hin). lia.
  - rewrite (wait_loop_late fuel msgId t0 r RECV_SLICE wait data rest w)
      by assumption.
    rewrite (slices_before_late wait Hw) in Hop.
    destruct (IH (wait - RECV_SLICE) r
                (after_recv w RECV_SLICE ((wait - RECV_SLICE, data) :: rest)))
      as (fuel' & Hrun & Hb'); try assumption; try reflexivity.
    + pose proof (wait_budget_late limit wait data rest w Hin Hw). lia.
    + rewrite after_recv_twice in Hrun, Hb'.
      replace (RECV_SLICE + Z.max 0 (wait - RECV_SLICE)) with (Z.max 0 wait)
        in Hrun, Hb' by (unfold RECV_SLICE in *; lia).
      exists fuel'. auto.
Qed.

Lemma after_recv_nothing (w : World) : after_recv w 0 (inbox w) = w.
Proof. destruct w. unfold after_recv. cbn. now rewrite Z.add_0_r. Qed.

(** Frames with other ids that are read while the deadline test passes are
    dropped: the loop is still running once they are gone, with iterations
    to spare. *)
Lemma wait_loop_drops (msgId t0 limit : Z) (rest : list (Z * bytes)) :
  forall (strays : list (Z * bytes)) (fuel : nat) (r : Z) (w : World),
    r <> msgId ->
    timeout w = Some RECV_SLICE ->
    inbox w = strays ++ rest ->
    Forall (stray msgId) strays ->
    forallb (window_open F self t0) (readings (time_ns w) strays) = true ->
    (wait_budget limit w < fuel)%nat ->
    exists fuel' r',
      wait_loop F self fuel msgId (float_time F t0) r w
      = wait_loop F self fuel' msgId (float_time F t0) r'
          (after_recv w (total_wait strays) rest)
      /\ r' <> msgId
      /\ (wait_budget limit (after_recv w (total_wait strays) rest)
          < fuel')%nat.
Proof.
  induction strays as [|[ws ds] strays IH]; intros fuel r w Hr Hto Hin Hs Hop Hb.
  - exists fuel, r. cbn [app] in Hin. cbn [total_wait].
    rewrite <- Hin, after_recv_nothing. auto.
  - inversion Hs as [|x l [fs [Hfs Hne]] Hs' E]; subst x l. cbn [snd] in Hfs.
    cbn [readings fst] in Hop. rewrite forallb_app in Hop.
    apply andb_prop in Hop. destruct Hop as [Hop1 Hop2].
    cbn [app] in Hin.
    destruct (wait_loop_reads msgId t0 limit ds (strays ++ rest) fuel ws r w
                Hr Hto Hin Hop1 Hb) as (fuel1 & Hrun1 & Hb1).
    rewrite Hfs in Hrun1.
    destruct (Z.eqb_spec msgId (fields_msgId fs)) as [E|_];
      [now symmetry in E|].
    destruct (IH fuel1 (fields_msgId fs)
                (after_recv w (Z.max 0 ws) (strays ++ rest)))
      as (fuel' & r' & Hrun & Hr' & Hb'); try assumption; try reflexivity.
    rewrite after_recv_twice in Hrun, Hb'. cbn [total_wait fst].
    exists fuel', r'. rewrite Hrun1. auto.
Qed.


(** Whatever the loop does, the socket keeps its timeout and the random
    generator its state, the clock does not go back, and the loop ends at
    the reading it started at or at most one receive slice after a reading
    at which its deadline test passed. *)
Lemma wait_loop_bounded (msgId t0 : Z) (fuel : nat) :
  forall (r : Z) (w w' : World) (o : Outcome Fields),
    timeout w = Some RECV_SLICE ->
    wait_loop F self fuel msgId (float_time F t0) r w = (o, w') ->
    timeout w' = Some RECV_SLICE
    /\ entropy w' = entropy w
    /\ time_ns w <= time_ns w'
    /\ (time_ns w' = time_ns w
        \/ exists t, time_ns w <= t
                     /\ window_open F self t0 t = true
                     /\ t <= time_ns w' <= t + RECV_SLICE).
Proof.
  induction fuel as [|fuel IH]; intros r w w' o Hto H.
  - cbn in H. injection H as <- <-. repeat split; auto; lia.
  - destruct (Z.eq_dec r msgId) as [Hr|Hr];
      [rewrite wait_loop_expired in H by auto; injection H as <- <-;
       repeat split; auto; lia|].
    destruct (window_open F self t0 (time_ns w)) eqn:Ht;
      [|rewrite wait_loop_expired in H by auto; injection H as <- <-;
        repeat split; auto; lia].
    assert (Hstep : forall dt i o1 w1,
               0 <= dt <= RECV_SLICE ->
               wait_loop F self fuel msgId (float_time F t0) o1
                 (after_recv w dt i) = (o, w1) ->
               timeout w1 = Some RECV_SLICE
               /\ entropy w1 = entropy w
               /\ time_ns w <= time_ns w1
               /\ (time_ns w1 = time_ns w
                   \/ exists t, time_ns w <= t
                                /\ window_open F self t0 t = true
                                /\ t <= time_ns w1 <= t + RECV_SLICE)).
    { intros dt i o1 w1 Hdt Hrun.
      apply IH in Hrun; [|exact Hto].
      cbn [time_ns timeout entropy after_recv] in Hrun.
      destruct Hrun as (Hto1 & Hen1 & Hle & Hor).
      repeat split; auto; [lia|]. right.
      destruct Hor as [Heq | (t & Ht1 & Ht2 & Ht3)].
      - exists (time_ns w). repeat split; auto; lia.
      - exists t. repeat split; auto; lia. }
    assert (Hstop : forall dt i,
               0 <= dt <= RECV_SLICE ->
               timeout (after_recv w dt i) = Some RECV_SLICE
               /\ entropy (after_recv w dt i) = entropy w
               /\ time_ns w <= time_ns (after_recv w dt i)
               /\ (time_ns (after_recv w dt i) = time_ns w
                   \/ exists t, time_ns w <= t
                                /\ window_open F self t0 t = true
                                /\ t <= time_ns (after_recv w dt i)
                                   <= t + RECV_SLICE)).
    { intros dt i Hdt. cbn [time_ns timeout entropy after_recv].
      repeat split; auto; [lia|]. right.
      exists (time_ns w). repeat split; auto; lia. }
    destruct (inbox w) as [|[wait data] rest] eqn:Hin.
    + rewrite (wait_loop_quiet fuel msgId t0 r RECV_SLICE w) in H
        by assumption.
      apply (Hstep RECV_SLICE [] r w'); [unfold RECV_SLICE; lia | exact H].
    + destruct (Z_lt_le_dec wait RECV_SLICE) as [Hw|Hw].
      * rewrite (wait_loop_got fuel msgId t0 r RECV_SLICE wait data rest w)
          in H by assumption.
        assert (Hdt : 0 <= Z.max 0 wait <= RECV_SLICE)
          by (unfold RECV_SLICE in *; lia).
        destruct (fromBytes data) as [f|e].
        -- destruct (msgId =? fields_msgId f).
           ++ injection H as <- <-. now apply Hstop.
           ++ now apply (Hstep (Z.max 0 wait) rest (fields_msgId f) w').
        -- injection H as <- <-. now apply Hstop.
      * rewrite (wait_loop_late fuel msgId t0 r RECV_SLICE wait data rest w)
          in H by assumption.
        apply (Hstep RECV_SLICE ((wait - RECV_SLICE, data) :: rest) r w');
          [unfold RECV_SLICE; lia | exact H].
Qed.

(** The iterations the loop is followed for are enough when the deadline
    test fails at every reading past [limit]: the loop then comes back. *)
Lemma wait_loop_total (msgId t0 limit : Z) (fuel : nat) :
  (forall now, limit < now -> window_open F self t0 now = false) ->
  forall (r : Z) (w : World),
    timeout w = Some RECV_SLICE ->
    (wait_budget limit w < fuel)%nat ->
    fst (wait_loop F self fuel msgId (float_time F t0) r w) <> Diverge.
Proof.
  intro Hshut.
  induction fuel as [|fuel IH]; intros r w Hto Hb; [lia|].
  destruct (Z.eq_dec r msgId) as [Hr|Hr];
    [rewrite wait_loop_expired by auto; discriminate|].
  destruct (window_open F self t0 (time_ns w)) eqn:Ht;
    [|rewrite wait_loop_expired by auto; discriminate].
  assert (Hnow : time_ns w <= limit).
  { destruct (Z_le_gt_dec (time_ns w) limit) as [H|H]; [exact H|].
    rewrite Hshut in Ht by lia. discriminate. }
  destruct (inbox w) as [|[wait data] rest] eqn:Hin.
  - rewrite (wait_loop_quiet fuel msgId t0 r RECV_SLICE w) by assumption.
    apply IH; [assumption|].
    pose proof (wait_budget_quiet limit w Hin Hnow). lia.
  - destruct (Z_lt_le_dec wait RECV_SLICE) as [Hw|Hw].
    + rewrite (wait_loop_got fuel msgId t0 r RECV_SLICE wait data rest w)
        by assumption.
      destruct (fromBytes data) as [f|e]; [|discriminate].
      destruct (msgId =? fields_msgId f); [discriminate|].
      apply IH; [assumption|].
      pose proof (wait_budget_read limit wait data rest w Hin). lia.
    + rewrite (wait_loop_late fuel msgId t0 r RECV_SLICE wait data rest w)
        by assumption.
      apply IH; [assumption|].
      pose proof (wait_budget_late limit wait data rest w Hin Hw). lia.
Qed.

(** [_waitForData] is its loop, started at the clock reading with the
    socket's timeout set. *)
Lemma _waitForData_unfold (msgId : Z) (w : World) :
  let w1 := {| time_ns := time_ns w; entropy := entropy w;
               timeout := Some RECV_SLICE; inbox := inbox w;
               outbox := outbox w |} in
  _waitForData F self msgId w
  = wait_loop F self (S (wait_budget (wait_limit self (time_ns w)) w1))
      msgId (float_time F (time_ns w)) (-1) w1.
Proof. reflexivity. Qed.

(** What [_waitForData] returns carries the requested id and was read
    from the socket; the call sends nothing. *)
Lemma _waitForData_sound (w w' : World) (msgId : Z) (o : Outcome Fields) :
  _waitForData F self msgId w = (o, w') ->
  outbox w' = outbox w
  /\ (forall f, o = Return f ->
        fields_msgId f = msgId
        /\ exists data, In data (map snd (inbox w)) /\ fromBytes data = Ok f).
Proof.
  intro H. rewrite _waitForData_unfold in H. cbv zeta in H.
  exact (wait_loop_sound _ _ _ _ _ _ _ H).
Qed.

(** However [_waitForData] ends, the socket has the timeout it has set,
    the random generator its state, the clock has not gone back, and the
    call ends at the reading it started at or at most one receive slice
    after a reading at which its deadline test passed. *)
Lemma _waitForData_bounded (w w' : World) (msgId : Z) (o : Outcome Fields) :
  _waitForData F self msgId w = (o, w') ->
  timeout w' = Some RECV_SLICE
  /\ entropy w' = entropy w
  /\ time_ns w <= time_ns w'
  /\ one_slice_past F self (time_ns w) (time_ns w').
Proof.
  intro H. rewrite _waitForData_unfold in H. cbv zeta in H.
  apply wait_loop_bounded in H; [|reflexivity].
  cbn [time_ns entropy] in H. exact H.
Qed.

(** [_waitForData] comes back when its deadline test fails at every
    reading later than one receive slice after the response window. *)
Lemma _waitForData_total (w : World) (msgId : Z) :
  (forall now,
      wait_limit self (time_ns w) < now ->
      window_open F self (time_ns w) now = false) ->
  fst (_waitForData F self msgId w) <> Diverge.
Proof.
  intro Hshut. rewrite _waitForData_unfold. cbv zeta.
  apply (wait_loop_total msgId (time_ns w) (wait_limit self (time_ns w)));
    [exact Hshut | reflexivity | lia].
Qed.

Lemma _waitForData_drops (w : World) (msgId : Z)
    (strays rest : list (Z * bytes)) :
  msgId <> -1 ->
  inbox w = strays ++ rest ->
  Forall (stray msgId) strays ->
  forallb (window_open F self (time_ns w)) (readings (time_ns w) strays)
  = true ->
  exists fuel' r',
    _waitForData F self msgId w
    = wait_loop F self fuel' msgId (float_time F (time_ns w)) r'
        {| time_ns := time_ns w + total_wait strays;
           entropy := entropy w;
           timeout := Some RECV_SLICE;
           inbox := rest;
           outbox := outbox w |}
    /\ r' <> msgId
    /\ (wait_budget (wait_limit self (time_ns w))
          {| time_ns := time_ns w + total_wait strays;
             entropy := entropy w;
             timeout := Some RECV_SLICE;
             inbox := rest;
             outbox := outbox w |} < fuel')%nat.
Proof.
  intros Hm Hin Hs Hop. rewrite _waitForData_unfold. cbv zeta.
  apply (wait_loop_drops msgId (time_ns w) _ rest strays _ (-1)); auto.
Qed.

(** A datagram read while the deadline test passes, after frames with
    other ids: [_waitForData] ends on what [fromBytes] makes of it unless
    it is one more frame with another id. *)
Lemma _waitForData_reads (w : World) (msgId : Z)
    (strays : list (Z * bytes)) (wait : Z) (data : bytes)
    (rest : list (Z * bytes)) :
  msgId <> -1 ->
  inbox w = strays ++ (wait, data) :: rest ->
  Forall (stray msgId) strays ->
  forallb (window_open F self (time_ns w))
    (readings (time_ns w) (strays ++ [(wait, data)])) = true ->
  let w' := {| time_ns := time_ns w + total_wait (strays ++ [(wait, data)]);
               entropy := entropy w;
               timeout := Some RECV_SLICE;
               inbox := rest;
               outbox := outbox w |} in
  exists fuel',
    _waitForData F self msgId w
    = match fromBytes data with
      | Ok f =>
          if msgId =? fields_msgId f
          then (Return f, w')
          else wait_loop F self fuel' msgId (float_time F (time_ns w))
                 (fields_msgId f) w'
      | Err e => (Raise e, w')
      end.
Proof.
  intros Hm Hin Hs Hop w'.
  rewrite readings_app, forallb_app in Hop.
  apply andb_prop in Hop. destruct Hop as [Hop1 Hop2].
  cbn [readings fst] in Hop2. rewrite app_nil_r in Hop2.
  destruct (_waitForData_drops w msgId strays ((wait, data) :: rest)
              Hm Hin Hs Hop1) as (fuel1 & r1 & Hrun1 & Hr1 & Hb1).
  rewrite Hrun1.
  match type of Hb1 with
  | (wait_budget _ ?w1 < _)%nat =>
      destruct (wait_loop_reads msgId (time_ns w)
                  (wait_limit self (time_ns w)) data rest fuel1 wait r1 w1
                  Hr1 eq_refl eq_refl Hop2 Hb1) as (fuel' & Hrun & _)
  end.
  exists fuel'. rewrite Hrun. unfold w', after_recv.
  cbn [time_ns entropy timeout outbox].
  rewrite total_wait_app. cbn [total_wait fst].
  now rewrite Z.add_0_r, Z.add_assoc.
Qed.

Lemma _waitForData_skips (w : World) (msgId : Z)
    (strays : list (Z * bytes)) (wait : Z) (data : bytes)
    (rest : list (Z * bytes)) (f : Fields) :
  msgId <> -1 ->
  inbox w = strays ++ (wait, data) :: rest ->
  Forall (stray msgId) strays ->
  fromBytes data = Ok f ->
  fields_msgId f = msgId ->
  forallb (window_open F self (time_ns w))
    (readings (time_ns w) (strays ++ [(wait, data)])) = true ->
  _waitForData F self msgId w
  = (Return f,
     {| time_ns := time_ns w + total_wait (strays ++ [(wait, data)]);
        entropy := entropy w;
        timeout := Some RECV_SLICE;
        inbox := rest;
        outbox := outbox w |}).
Proof.
  intros Hm Hin Hs Hf Hid Hop.
  destruct (_waitForData_reads w msgId strays wait data rest Hm Hin Hs Hop)
    as (fuel' & Hrun).
  rewrite Hrun, Hf, Hid, Z.eqb_refl. reflexivity.
Qed.

(** C3: [_waitForData] returns only a frame that was read from the
    socket and carries the requested id; frames with other ids that come
    before a matching frame, all read while the deadline test of the loop
    passes, are dropped without anything being sent and without aborting
    the wait, and the matching frame is returned; and whatever follows
    them, once frames with other ids that are read while the test passes
    are dropped the call is still in its loop, with nothing sent. *)
Theorem waitForData_matches (w : World) (msgId : Z) :
  (forall f w',
      _waitForData F self msgId w = (Return f, w') ->
      fields_msgId f = msgId
      /\ (exists data, In data (map snd (inbox w)) /\ fromBytes data = Ok f)
      /\ outbox w' = outbox w)
  /\ (forall strays wait data rest f,
        msgId <> -1 ->
        inbox w = strays ++ (wait, data) :: rest ->
        Forall (stray msgId) strays ->
        fromBytes data = Ok f ->
        fields_msgId f = msgId ->
        forallb (window_open F self (time_ns w))
          (readings (time_ns w) (strays ++ [(wait, data)])) = true ->
        _waitForData F self msgId w
        = (Return f,
           {| time_ns := time_ns w + total_wait (strays ++ [(wait, data)]);
              entropy := entropy w;
              timeout := Some RECV_SLICE;
              inbox := rest;
              outbox := outbox w |}))
  /\ (forall strays rest,
        msgId <> -1 ->
        inbox w = strays ++ rest ->
        Forall (stray msgId) strays ->
        forallb (window_open F self (time_ns w))
          (readings (time_ns w) strays) = true ->
        exists fuel' r',
          _waitForData F self msgId w
          = wait_loop F self fuel' msgId (float_time F (time_ns w)) r'
              {| time_ns := time_ns w + total_wait strays;
                 entropy := entropy w;
                 timeout := Some RECV_SLICE;
                 inbox := rest;
                 outbox := outbox w |}
          /\ r' <> msgId
          /\ (wait_budget (wait_limit self (time_ns w))
                {| time_ns := time_ns w + total_wait strays;
                   entropy := entropy w;
                   timeout := Some RECV_SLICE;
                   inbox := rest;
                   outbox := outbox w |} < fuel')%nat).
Proof.
  split; [|split].
  - intros f w' H. destruct (_waitForData_sound w w' msgId _ H) as [Ho Hf].
    destruct (Hf f eq_refl) as [Hid Hd]. auto.
  - intros strays wait data rest f. apply _waitForData_skips.
  - intros strays rest. apply _waitForData_drops.
Qed.


(** ** Sending, acknowledging and collecting blocks *)

Hypothesis seconds_fit : forall ns, 0 <= seconds_of_ns ns < 2 ^ 64.

Variable ackBytes : bytes.
Hypothesis Ack_encodes : utf8_encode Ack_reqBody = Some ackBytes.

Lemma fromBytes_decoded (data : bytes) :
  (24 <= length data)%nat -> fromBytes data = Ok (decoded data).
Proof.
  intro H. rewrite fromBytes_cases.
  destruct (Nat.ltb_spec (length data) 24); [lia | reflexivity].
Qed.

Lemma fromBytes_Ok_decoded (data : bytes) (f : Fields) :
  fromBytes data = Ok f -> (24 <= length data)%nat /\ f = decoded data.
Proof.
  rewrite fromBytes_cases.
  destruct (Nat.ltb_spec (length data) 24); [discriminate|].
  intros [= <-]. auto.
Qed.

Lemma be_decode_range (bs : bytes) :
  0 <= be_decode bs < 256 ^ Z.of_nat (length bs).
Proof.
  induction bs as [|b bs IH]; cbn [be_decode length]; [cbn; lia|].
  pose proof (Z_of_byte_range b) as Hb.
  replace (Z.of_nat (S (length bs))) with (Z.of_nat (length bs) + 1) by lia.
  rewrite Z.pow_add_r, Z.pow_1_r by lia.
  nia.
Qed.

Lemma decoded_msgId_range (data : bytes) :
  0 <= fields_msgId (decoded data) < 2 ^ 32.
Proof.
  unfold decoded, unpack_fields, fields_msgId.
  pose proof (be_decode_range (firstn 4 (firstn 24 data))) as H.
  assert (Hl : (length (firstn 4 (firstn 24 data)) <= 4)%nat)
    by (rewrite length_firstn; lia).
  assert (256 ^ Z.of_nat (length (firstn 4 (firstn 24 data))) <= 256 ^ 4)
    by (apply Z.pow_le_mono_r; lia).
  change (2 ^ 32) with (256 ^ 4). lia.
Qed.

Lemma _recv_ready (w : World) (wait : Z) (data : bytes)
    (rest : list (Z * bytes)) :
  inbox w = (wait, data) :: rest -> readable (timeout w) wait ->
  _recv w = lift (fromBytes data) (after_recv w (Z.max 0 wait) rest).
Proof.
  intros Hin Hr. unfold _recv, bind, recvfrom. rewrite Hin.
  destruct (timeout w) as [t|]; cbn [readable] in Hr.
  - destruct (Z.ltb_spec wait t); [|lia].
    destruct (fromBytes data); reflexivity.
  - destruct (fromBytes data); reflexivity.
Qed.

Lemma send_request_run (request : OmniLogicRequest) (w : World) :
  header_in_range (msgId request, seconds_of_ns (time_ns w), version request,
                   msgType request, clientType request, 0, 0, 0) ->
  send_request seconds_of_ns self request w
  = (Return tt,
     after_send w
       (header_bytes (msgId request, seconds_of_ns (time_ns w),
                      version request, msgType request, clientType request,
                      0, 0, 0) ++ extraData request)
       (controllerIpAndPort self)).
Proof.
  intro Hr. unfold send_request, bind, time_time_ns, toBytes.
  now rewrite (struct_pack_in_range _ Hr).
Qed.

Lemma _sendAck_run (id : Z) (w : World) :
  0 <= id < 2 ^ 32 ->
  _sendAck seconds_of_ns Ack_reqBody self id w
  = (Return tt,
     after_send w (ack_wire seconds_of_ns ackBytes id (time_ns w))
       (controllerIpAndPort self)).
Proof.
  intro Hid. unfold _sendAck, OmniLogicRequest_init.
  rewrite Ack_encodes. change (utf8_encode (literal "1.19")) with (Some VERSION_BYTES).
  unfold bind at 1. cbn [lift ret].
  rewrite send_request_run; [reflexivity|].
  cbn [header_in_range msgId msgType clientType version].
  pose proof (seconds_fit (time_ns w)). unfold XMLACK_MESSAGE_TYPE.
  repeat split; try lia; reflexivity.
Qed.

Lemma world_eta (w : World) :
  {| time_ns := time_ns w; entropy := entropy w; timeout := timeout w;
     inbox := inbox w; outbox := outbox w |} = w.
Proof. now destruct w. Qed.

(** The block loop reads the next [blockCount] datagrams, whatever their
    headers say, acknowledges each and appends each payload without its
    first 8 bytes. *)
Lemma receive_blocks_run (blocks : list (Z * bytes)) :
  forall (acc : bytes) (w : World) (rest : list (Z * bytes)),
    inbox w = blocks ++ rest ->
    Forall (available (timeout w)) blocks ->
    receive_blocks seconds_of_ns Ack_reqBody self (length blocks) acc w
    = (Return (acc ++ block_payloads blocks),
       {| time_ns := time_ns w + total_wait blocks;
          entropy := entropy w;
          timeout := timeout w;
          inbox := rest;
          outbox := outbox w
                    ++ acks_for seconds_of_ns ackBytes
                         (controllerIpAndPort self) (time_ns w) blocks |}).
Proof.
  induction blocks as [|[wait data] blocks IH]; intros acc w rest Hin Hav.
  - cbn [length receive_blocks block_payloads map concat total_wait acks_for].
    unfold ret. rewrite !app_nil_r, Z.add_0_r.
    cbn [app] in Hin. rewrite <- Hin. now rewrite world_eta.
  - inversion Hav as [|x l [Hr Hlen] Hav' E]; subst x l.
    cbn [fst snd] in Hr, Hlen. cbn [app] in Hin.
    cbn [length receive_blocks]. unfold bind at 1.
    rewrite (_recv_ready w wait data (blocks ++ rest) Hin Hr).
    rewrite (fromBytes_decoded data Hlen). cbn [lift ret].
    unfold block_payloads.
    cbn [map concat total_wait acks_for fst snd].
    fold (block_payloads blocks).
    pose proof (decoded_msgId_range data) as Hid.
    destruct (decoded data) as [[[[[[[[i ts] v] ty] c] r1] r2] r3] d].
    cbn [fields_msgId fields_data] in *.
    unfold bind at 1. rewrite (_sendAck_run i _ Hid).
    rewrite (IH (acc ++ skipn 8 d) _ rest); [| reflexivity | exact Hav'].
    cbn [time_ns entropy timeout inbox outbox after_send after_recv].
    rewrite <- !app_assoc, Z.add_assoc. reflexivity.
Qed.

(** [_receiveFile] up to the decompression, on a first datagram that can
    be read and decoded. *)
Lemma _receiveFile_assemble_run (w : World) (wait : Z) (data : bytes)
    (more : list (Z * bytes)) :
  inbox w = (wait, data) :: more ->
  available (timeout w) (wait, data) ->
  _receiveFile_assemble seconds_of_ns Ack_reqBody MsgBlockCount self w
  = let f := decoded data in
    let w1 := after_first seconds_of_ns ackBytes (controllerIpAndPort self)
                w wait data more in
    if fields_msgType f =? MSP_LEADMESSAGE_MESSAGE_TYPE then
      match MsgBlockCount (removelast (fields_data f)) with
      | Ok blockCount =>
          match receive_blocks seconds_of_ns Ack_reqBody self
                  (Z.to_nat blockCount) [] w1 with
          | (Return retval, w2) => (Return (msgCompressed_of f, retval), w2)
          | (Raise e, w2) => (Raise e, w2)
          | (Diverge, w2) => (Diverge, w2)
          end
      | Err e => (Raise e, w1)
      end
    else if msgCompressed_of f then (Return (true, fields_data f), w1)
    else (Return (false, skipn 8 (fields_data f)), w1).
Proof.
  intros Hin [Hr Hlen]. cbn [fst snd] in Hr, Hlen.
  unfold _receiveFile_assemble, after_first. unfold bind at 1.
  rewrite (_recv_ready w wait data more Hin Hr).
  rewrite (fromBytes_decoded data Hlen). cbn [lift ret].
  pose proof (decoded_msgId_range data) as Hid.
  cbv zeta. unfold msgCompressed_of.
  destruct (decoded data) as [[[[[[[[i ts] v] ty] c] r1] r2] r3] d].
  cbn [fields_msgId fields_data fields_msgType fields_compressed] in *.
  unfold bind at 1. rewrite (_sendAck_run i _ Hid).
  cbn [existsb]. rewrite orb_false_r.
  destruct (ty =? MSP_LEADMESSAGE_MESSAGE_TYPE).
  - unfold bind at 1.
    destruct (MsgBlockCount (removelast d)) as [n|e]; cbn [lift ret raise];
      [|reflexivity].
    unfold bind.
    destruct (receive_blocks _ _ _ _ _ _) as [[retval|e|] w2]; reflexivity.
  - destruct (_ || _); reflexivity.
Qed.

Lemma block_payloads_skipn (blocks : list (Z * bytes)) :
  block_payloads blocks
  = concat (map (fun d => skipn 8 (skipn 24 (snd d))) blocks).
Proof. reflexivity. Qed.

(** C5: when [_receiveFile] reads a lead frame whose payload, without its
    last byte, announces [MsgBlockCount = N], it reads exactly the next N
    datagrams and the buffer it assembles is the concatenation, in the
    order of arrival, of their payloads (the bytes after the 24-byte
    header) without their first 8 bytes. *)
Theorem receiveFile_assemble_lead (w : World) (wait : Z) (lead : bytes)
    (blocks rest : list (Z * bytes)) (N : Z) :
  inbox w = (wait, lead) :: blocks ++ rest ->
  Forall (available (timeout w)) ((wait, lead) :: blocks) ->
  fields_msgType (decoded lead) = MSP_LEADMESSAGE_MESSAGE_TYPE ->
  MsgBlockCount (removelast (skipn 24 lead)) = Ok N ->
  length blocks = Z.to_nat N ->
  exists w',
    _receiveFile_assemble seconds_of_ns Ack_reqBody MsgBlockCount self w
    = (Return (msgCompressed_of (decoded lead),
               concat (map (fun d => skipn 8 (skipn 24 (snd d))) blocks)),
       w')
    /\ inbox w' = rest.
Proof.
  intros Hin Hav Hty HN Hlen.
  inversion Hav as [|x l Hav1 Hav' E]; subst x l.
  rewrite (_receiveFile_assemble_run w wait lead (blocks ++ rest) Hin Hav1).
  cbv zeta. rewrite Hty, Z.eqb_refl.
  change (fields_data (decoded lead)) with (skipn 24 lead). rewrite HN.
  rewrite <- Hlen.
  rewrite (receive_blocks_run blocks [] _ rest); [| reflexivity | exact Hav'].
  eexists. split; [reflexivity | reflexivity].
Qed.

(** C10: the block loop takes each of the next datagrams as the next
    block, with whatever message id, message type and other fields its
    header carries: the payload of each, without its first 8 bytes, is
    appended to the buffer. *)
Theorem receive_blocks_any_header (bs : list (Z * Header * bytes))
    (acc : bytes) (w : World) (rest : list (Z * bytes)) :
  inbox w = map block_datagram bs ++ rest ->
  Forall (fun b => readable (timeout w) (fst (fst b))
                   /\ header_in_range (snd (fst b))) bs ->
  exists w',
    receive_blocks seconds_of_ns Ack_reqBody self (length bs) acc w
    = (Return (acc ++ concat (map (fun b => skipn 8 (snd b)) bs)), w')
    /\ inbox w' = rest.
Proof.
  intros Hin Hav.
  assert (Hav' : Forall (available (timeout w)) (map block_datagram bs)).
  { apply Forall_map. eapply Forall_impl; [|exact Hav].
    intros [[wait h] p] [Hr Hh]. cbn [fst snd] in Hr, Hh.
    split; [exact Hr|]. cbn [block_datagram snd].
    rewrite length_app, (header_bytes_length h Hh). lia. }
  assert (Hp : block_payloads (map block_datagram bs)
               = concat (map (fun b => skipn 8 (snd b)) bs)).
  { rewrite block_payloads_skipn, map_map. f_equal.
    apply map_ext_Forall. eapply Forall_impl; [|exact Hav].
    intros [[wait h] p] [_ Hh]. cbn [fst snd block_datagram] in *.
    now rewrite (skipn_exact 24 _ p (header_bytes_length h Hh)). }
  pose proof (receive_blocks_run (map block_datagram bs) acc w rest Hin Hav')
    as Hrun.
  rewrite length_map, Hp in Hrun.
  eexists. split; [exact Hrun | reflexivity].
Qed.

Lemma acks_for_are_acks (frames : list (Z * bytes)) :
  forall now,
    Forall2 (is_ack_of ackBytes (controllerIpAndPort self)) frames
      (acks_for seconds_of_ns ackBytes (controllerIpAndPort self) now frames).
Proof.
  induction frames as [|[wait data] frames IH]; intro now;
    cbn [acks_for]; constructor; [|apply IH].
  split; [reflexivity|]. cbn [fst snd].
  exists (seconds_of_ns (now + Z.max 0 wait)).
  unfold ack_wire. rewrite fromBytes_header_bytes; [reflexivity|].
  pose proof (decoded_msgId_range data).
  pose proof (seconds_fit (now + Z.max 0 wait)).
  cbn [header_in_range]. unfold XMLACK_MESSAGE_TYPE.
  repeat split; try lia; reflexivity.
Qed.

(** C4, as the code has it: [_waitForData] sends nothing, so neither the
    frame it matches nor the frames it drops are acknowledged; every frame
    [_receiveFile] reads, its first frame and each block frame, is
    acknowledged exactly once, in order, by a frame that carries the id of
    the frame read, message type 0, client type 0 and the encoded [Ack]
    request as payload. *)
Theorem receiveFile_acks_each_frame (w : World) (first : Z * bytes)
    (blocks rest : list (Z * bytes)) :
  inbox w = first :: blocks ++ rest ->
  Forall (available (timeout w)) (first :: blocks) ->
  (if fields_msgType (decoded (snd first)) =? MSP_LEADMESSAGE_MESSAGE_TYPE
   then exists N, MsgBlockCount (removelast (skipn 24 (snd first))) = Ok N
                  /\ length blocks = Z.to_nat N
   else blocks = []) ->
  (forall msgId w0 o w0',
      _waitForData F self msgId w0 = (o, w0') -> outbox w0' = outbox w0)
  /\ exists r w' acks,
       _receiveFile_assemble seconds_of_ns Ack_reqBody MsgBlockCount self w
       = (Return r, w')
       /\ outbox w' = outbox w ++ acks
       /\ Forall2 (is_ack_of ackBytes (controllerIpAndPort self))
            (first :: blocks) acks.
Proof.
  intros Hin Hav Hshape. split.
  - intros id w0 o w0' H. rewrite _waitForData_unfold in H. cbv zeta in H.
    now destruct (wait_loop_sound _ _ _ _ _ _ _ H) as [Ho _].
  - destruct first as [wait data]. cbn [snd] in Hshape.
    inversion Hav as [|x l Hav1 Hav' E]; subst x l.
    rewrite (_receiveFile_assemble_run w wait data (blocks ++ rest) Hin Hav1).
    cbv zeta.
    pose proof (acks_for_are_acks ((wait, data) :: blocks) (time_ns w)) as Hacks.
    cbn [acks_for fst snd] in Hacks.
    destruct (fields_msgType (decoded data) =? MSP_LEADMESSAGE_MESSAGE_TYPE).
    + destruct Hshape as (N & HN & Hlen).
      change (fields_data (decoded data)) with (skipn 24 data). rewrite HN.
      rewrite <- Hlen.
      rewrite (receive_blocks_run blocks [] _ rest);
        [| reflexivity | exact Hav'].
      eexists _, _, _. split; [reflexivity|]. split; [|exact Hacks].
      cbn [outbox time_ns after_first after_send after_recv].
      now rewrite <- app_assoc.
    + subst blocks. cbn [acks_for] in Hacks.
      destruct (msgCompressed_of (decoded data));
        eexists _, _, _; (split; [reflexivity|]); (split; [|exact Hacks]);
        reflexivity.
Qed.

Lemma utf8_encode_app (a b : str) (x y : bytes) :
  utf8_encode a = Some x -> utf8_encode b = Some y ->
  utf8_encode (a ++ b) = Some (x ++ y).
Proof.
  revert x. induction a as [|c a IH]; intros x Ha Hb; cbn [app utf8_encode] in *.
  - now injection Ha as <-.
  - destruct (utf8_encode_char c) as [bs|]; [|discriminate].
    destruct (utf8_encode a) as [more|]; [|discriminate].
    injection Ha as <-. rewrite (IH more eq_refl Hb).
    now rewrite app_assoc.
Qed.

(** [_sendRequest] up to its wait: the request it builds and sends. *)
Lemma _sendRequest_run (w : World) (ty : Z) (text : str)
    (body : bytes) :
  0 <= ty < 2 ^ 32 ->
  utf8_encode text = Some body ->
  _sendRequest seconds_of_ns F self ty text w
  = match
      _waitForData F self (drawn_id w)
        (after_send (after_draw w)
           (header_bytes (drawn_id w, seconds_of_ns (time_ns w),
                          VERSION_BYTES, ty,
                          match text with [] => 1 | _ => 0 end, 0, 0, 0)
            ++ match text with [] => [] | _ => body ++ [x00] end)
           (controllerIpAndPort self))
    with
    | (Return _, w') => (Return tt, w')
    | (Raise e, w') => (Raise e, w')
    | (Diverge, w') => (Diverge, w')
    end.
Proof.
  intros Hty Hbody.
  assert (Hid : 0 <= drawn_id w < 2 ^ 32).
  { unfold drawn_id. destruct (entropy w); [lia|].
    apply Z.mod_pos_bound. lia. }
  assert (Hdraw : random_randrange (2 ^ 32) w = (Return (drawn_id w), after_draw w)).
  { unfold random_randrange, drawn_id. now destruct (entropy w). }
  unfold _sendRequest. unfold bind at 1. rewrite Hdraw.
  assert (Henc : utf8_encode
                   (text ++ match text with [] => [] | _ => [0%N] end)
                 = Some match text with [] => [] | _ => body ++ [x00] end).
  { destruct text as [|c s].
    - reflexivity.
    - now apply utf8_encode_app. }
  unfold OmniLogicRequest_init. rewrite Henc.
  change (utf8_encode (literal "1.19")) with (Some VERSION_BYTES).
  unfold bind at 1. cbn [lift ret]. unfold bind at 1.
  rewrite send_request_run.
  - cbn [msgId msgType clientType version extraData time_ns after_draw].
    unfold bind, ret.
    destruct (_waitForData _ _ _) as [[f|e|] w']; reflexivity.
  - cbn [header_in_range msgId msgType clientType version time_ns after_draw].
    pose proof (seconds_fit (time_ns w)).
    repeat split; try lia; try reflexivity; destruct text; lia.
Qed.

(** C7: the frame [_sendRequest] sends has client type 1 and an empty
    payload when the request text is empty, and client type 0 and the
    encoded text followed by one null byte when it is not. *)
Theorem sendRequest_frame (w : World) (msgType : Z) (extraData : str)
    (body : bytes) :
  0 <= msgType < 2 ^ 32 ->
  utf8_encode extraData = Some body ->
  exists wire,
    outbox (snd (_sendRequest seconds_of_ns F self msgType extraData w))
    = outbox w ++ [(wire, controllerIpAndPort self)]
    /\ fromBytes wire
       = Ok (drawn_id w, seconds_of_ns (time_ns w), VERSION_BYTES, msgType,
             match extraData with [] => 1 | _ => 0 end, 0, 0, 0,
             match extraData with [] => [] | _ => body ++ [x00] end).
Proof.
  intros Hty Hbody. rewrite (_sendRequest_run w msgType extraData body Hty Hbody).
  eexists. split.
  - destruct (_waitForData _ _ _) as [o w'] eqn:E.
    rewrite _waitForData_unfold in E. cbv zeta in E.
    destruct (wait_loop_sound _ _ _ _ _ _ _ E) as [Ho _].
    cbn [outbox after_send after_draw] in Ho.
    destruct o; cbn [snd]; exact Ho.
  - rewrite fromBytes_header_bytes; [reflexivity|].
    assert (Hid : 0 <= drawn_id w < 2 ^ 32).
    { unfold drawn_id. destruct (entropy w); [lia|].
      apply Z.mod_pos_bound. lia. }
    pose proof (seconds_fit (time_ns w)).
    cbn [header_in_range].
    repeat split; try lia; try reflexivity; destruct extraData; lia.
Qed.


(** C8: the buffer [_receiveFile] has assembled goes through
    [zlib.decompress] exactly when the compressed byte of the first frame
    read is 1 or its message type is [MSP_TELEMETRYUPDATE_MESSAGE_TYPE];
    what [zlib.decompress] raises on the buffer is what the call raises,
    and otherwise the bytes are decoded as UTF-8. *)
Theorem receiveFile_decompress (w : World) (wait : Z) (data : bytes)
    (more : list (Z * bytes)) (c : bool) (buf : bytes) (w' : World) :
  inbox w = (wait, data) :: more ->
  available (timeout w) (wait, data) ->
  _receiveFile_assemble seconds_of_ns Ack_reqBody MsgBlockCount self w
  = (Return (c, buf), w') ->
  c = (fields_compressed (decoded data) =? 1)
      || (fields_msgType (decoded data) =? MSP_TELEMETRYUPDATE_MESSAGE_TYPE)
  /\ _receiveFile seconds_of_ns Ack_reqBody MsgBlockCount zlib_decompress
       decode_utf8 self w
     = (if c
        then match zlib_decompress buf with
             | Ok plain => outcome_of (decode_utf8 plain)
             | Err e => Raise e
             end
        else outcome_of (decode_utf8 buf),
        w').
Proof.
  intros Hin Hav Hrun. split.
  - rewrite (_receiveFile_assemble_run w wait data more Hin Hav) in Hrun.
    cbv zeta in Hrun. fold (msgCompressed_of (decoded data)).
    destruct (fields_msgType (decoded data) =? MSP_LEADMESSAGE_MESSAGE_TYPE).
    + destruct (MsgBlockCount _) as [n|e]; [|discriminate].
      destruct (receive_blocks _ _ _ _ _ _) as [[retval|e|] w2];
        try discriminate.
      now injection Hrun as <- _ _.
    + destruct (msgCompressed_of (decoded data)); now injection Hrun as <- _ _.
  - unfold _receiveFile. unfold bind at 1. rewrite Hrun.
    unfold bind. destruct c.
    + destruct (zlib_decompress buf) as [plain|e]; cbn [lift ret raise];
        [|reflexivity].
      destruct (decode_utf8 plain); reflexivity.
    + cbn [ret]. destruct (decode_utf8 buf); reflexivity.
Qed.

Lemma bind_ret_r {A} (c : M A) (w : World) :
  bind c (fun a => ret a) w = c w.
Proof. unfold bind, ret. now destruct (c w) as [[a|e|] w']. Qed.

(** [_sendRequest] when the frame with its id is read while the deadline
    test passes, after frames with other ids: it has sent its request,
    dropped those frames, and returns with what follows the matching frame
    unread. *)
Lemma _sendRequest_returns (w : World) (ty : Z) (text : str) (body : bytes)
    (strays : list (Z * bytes)) (wm : Z) (matched : bytes)
    (rest : list (Z * bytes)) :
  0 <= ty < 2 ^ 32 ->
  utf8_encode text = Some body ->
  inbox w = strays ++ (wm, matched) :: rest ->
  Forall (stray (drawn_id w)) strays ->
  (24 <= length matched)%nat ->
  fields_msgId (decoded matched) = drawn_id w ->
  forallb (window_open F self (time_ns w))
    (readings (time_ns w) (strays ++ [(wm, matched)])) = true ->
  _sendRequest seconds_of_ns F self ty text w
  = (Return tt,
     {| time_ns := time_ns w + total_wait (strays ++ [(wm, matched)]);
        entropy := tl (entropy w);
        timeout := Some RECV_SLICE;
        inbox := rest;
        outbox := outbox w
                  ++ [(request_wire seconds_of_ns w ty text body,
                       controllerIpAndPort self)] |}).
Proof.
  intros Hty Hbody Hin Hs Hlm Hid Hop.
  assert (Hpos : drawn_id w <> -1).
  { unfold drawn_id. destruct (entropy w); [lia|].
    pose proof (Z.mod_pos_bound z (2 ^ 32)). lia. }
  rewrite (_sendRequest_run w ty text body Hty Hbody).
  match goal with
  | |- context [_waitForData F self (drawn_id w) ?w1] =>
      rewrite (_waitForData_skips w1 (drawn_id w) strays wm matched rest
                 (decoded matched) Hpos Hin Hs
                 (fromBytes_decoded matched Hlm) Hid Hop)
  end.
  reflexivity.
Qed.

(** Once the frame with the id of the request has come, an exchange is
    [_receiveFile] on what follows that frame. *)
Lemma exchange_after_match (w : World) (ty : Z) (reqBody : str)
    (body : bytes) (strays : list (Z * bytes)) (wm : Z) (matched : bytes)
    (rest : list (Z * bytes)) :
  0 <= ty < 2 ^ 32 ->
  utf8_encode reqBody = Some body ->
  inbox w = strays ++ (wm, matched) :: rest ->
  Forall (stray (drawn_id w)) strays ->
  (24 <= length matched)%nat ->
  fields_msgId (decoded matched) = drawn_id w ->
  forallb (window_open F self (time_ns w))
    (readings (time_ns w) (strays ++ [(wm, matched)])) = true ->
  exchange seconds_of_ns Ack_reqBody MsgBlockCount zlib_decompress
    decode_utf8 F self ty reqBody w
  = _receiveFile seconds_of_ns Ack_reqBody MsgBlockCount zlib_decompress
      decode_utf8 self
      {| time_ns := time_ns w + total_wait (strays ++ [(wm, matched)]);
         entropy := tl (entropy w);
         timeout := Some RECV_SLICE;
         inbox := rest;
         outbox := outbox w
                   ++ [(request_wire seconds_of_ns w ty reqBody body,
                        controllerIpAndPort self)] |}.
Proof.
  intros Hty Hbody Hin Hs Hlm Hid Hop.
  unfold exchange. unfold bind at 1. cbn [getSock]. unfold bind at 1.
  set (w0 := {| time_ns := time_ns w; entropy := entropy w;
                timeout := None; inbox := inbox w; outbox := outbox w |}).
  rewrite (_sendRequest_returns w0 ty reqBody body strays wm matched rest
             Hty Hbody Hin Hs Hlm Hid Hop).
  now rewrite bind_ret_r.
Qed.

(** C2, as the code has it: the frame [_waitForData] returns for a request
    carries the id of that request; once that frame has come, after any
    frames with other ids and all read while the deadline test of the wait
    loop passes, the exchange is [_receiveFile] on the datagrams after it,
    so the matched frame's payload is dropped and the response is made from
    the next datagram read, whatever message id that frame carries. *)
Theorem exchange_response_frame (w : World) (msgType : Z) (reqBody : str)
    (body : bytes) (strays : list (Z * bytes)) (wm : Z) (matched : bytes)
    (rest : list (Z * bytes)) :
  0 <= msgType < 2 ^ 32 ->
  utf8_encode reqBody = Some body ->
  inbox w = strays ++ (wm, matched) :: rest ->
  Forall (stray (drawn_id w)) strays ->
  (24 <= length matched)%nat ->
  fields_msgId (decoded matched) = drawn_id w ->
  forallb (window_open F self (time_ns w))
    (readings (time_ns w) (strays ++ [(wm, matched)])) = true ->
  (forall w1 f w2,
      _waitForData F self (drawn_id w) w1 = (Return f, w2) ->
      fields_msgId f = drawn_id w)
  /\ exchange seconds_of_ns Ack_reqBody MsgBlockCount zlib_decompress
       decode_utf8 F self msgType reqBody w
     = _receiveFile seconds_of_ns Ack_reqBody MsgBlockCount zlib_decompress
         decode_utf8 self
         {| time_ns := time_ns w + total_wait (strays ++ [(wm, matched)]);
            entropy := tl (entropy w);
            timeout := Some RECV_SLICE;
            inbox := rest;
            outbox := outbox w
                      ++ [(request_wire seconds_of_ns w msgType reqBody body,
                           controllerIpAndPort self)] |}
  /\ (forall wr resp rest',
        rest = (wr, resp) :: rest' ->
        wr < RECV_SLICE ->
        (24 <= length resp)%nat ->
        fields_msgType (decoded resp) <> MSP_LEADMESSAGE_MESSAGE_TYPE ->
        exists w',
          exchange seconds_of_ns Ack_reqBody MsgBlockCount zlib_decompress
            decode_utf8 F self msgType reqBody w
          = (outcome_of
               (short_response zlib_decompress decode_utf8 (decoded resp)),
             w')).
Proof.
  intros Hty Hbody Hin Hs Hlm Hid Hop. split; [|split].
  - intros w1 f w2 H.
    destruct (_waitForData_sound w1 w2 (drawn_id w) _ H) as [_ Hf].
    now destruct (Hf f eq_refl).
  - now apply (exchange_after_match w msgType reqBody body strays wm matched
                 rest).
  - intros wr resp rest' -> Hwr Hlr Hnl.
    rewrite (exchange_after_match w msgType reqBody body strays wm matched
               ((wr, resp) :: rest') Hty Hbody Hin Hs Hlm Hid Hop).
    unfold _receiveFile. unfold bind at 1.
    erewrite _receiveFile_assemble_run;
      [| reflexivity | split; [exact Hwr | exact Hlr]].
    cbv zeta. unfold short_response.
    destruct (Z.eqb_spec (fields_msgType (decoded resp))
                MSP_LEADMESSAGE_MESSAGE_TYPE) as [E|_]; [contradiction|].
    destruct (msgCompressed_of (decoded resp)).
    + unfold bind. cbn [Res_bind].
      destruct (zlib_decompress (fields_data (decoded resp))) as [plain|e];
        cbn [lift ret raise outcome_of Res_bind].
      * destruct (decode_utf8 plain); cbn; eexists; reflexivity.
      * eexists; reflexivity.
    + unfold bind. cbn [ret].
      destruct (decode_utf8 (skipn 8 (fields_data (decoded resp))));
        cbn; eexists; reflexivity.
Qed.

(** ** More on the codec *)

Lemma byte_of_Z_of_byte (b : byte) : byte_of_Z (Z_of_byte b) = b.
Proof.
  unfold byte_of_Z. pose proof (Z_of_byte_range b) as Hr.
  rewrite Z.mod_small by lia. unfold Z_of_byte.
  now rewrite N2Z.id, Byte.of_to_N.
Qed.

Lemma Z_of_byte_inj (a b : byte) : Z_of_byte a = Z_of_byte b -> a = b.
Proof.
  intro H. rewrite <- (byte_of_Z_of_byte a), <- (byte_of_Z_of_byte b).
  now rewrite H.
Qed.

Lemma be_decode_inj (a : bytes) :
  forall b, length a = length b -> be_decode a = be_decode b -> a = b.
Proof.
  induction a as [|x a IH]; intros [|y b] Hl He; try discriminate Hl.
  - reflexivity.
  - cbn [length] in Hl. injection Hl as Hl. cbn [be_decode] in He.
    rewrite Hl in He.
    pose proof (be_decode_range a) as Ha. rewrite Hl in Ha.
    pose proof (be_decode_range b) as Hb.
    pose proof (Z_of_byte_range x) as Hx.
    pose proof (Z_of_byte_range y) as Hy.
    assert (Hp : 0 < 256 ^ Z.of_nat (length b))
      by (apply Z.pow_pos_nonneg; lia).
    assert (Hxy : Z_of_byte x = Z_of_byte y) by nia.
    rewrite Hxy in He.
    f_equal; [now apply Z_of_byte_inj | apply IH; [assumption | lia]].
Qed.

Lemma be_bytes_be_decode (bs : bytes) :
  be_bytes (length bs) (be_decode bs) = bs.
Proof.
  apply be_decode_inj; [apply be_bytes_length|].
  apply be_decode_be_bytes, be_decode_range.
Qed.

Lemma unpack_fields_in_range (header : bytes) :
  length header = 24%nat -> header_in_range (unpack_fields header).
Proof.
  intro Hl.
  do 25 (destruct header as [|? header]; try discriminate Hl).
  unfold unpack_fields. cbn [firstn skipn header_in_range].
  repeat split; try reflexivity;
    match goal with
    | |- context [be_decode ?l] =>
        pose proof (be_decode_range l) as Hr; cbn [length] in Hr;
        change (2 ^ 32) with (256 ^ Z.of_nat 4);
        change (2 ^ 64) with (256 ^ Z.of_nat 8);
        change (2 ^ 8) with (256 ^ Z.of_nat 1); lia
    end.
Qed.

Lemma header_bytes_unpack_fields (header : bytes) :
  length header = 24%nat -> header_bytes (unpack_fields header) = header.
Proof.
  intro Hl.
  do 25 (destruct header as [|? header]; try discriminate Hl).
  unfold unpack_fields. cbn [firstn skipn header_bytes].
  repeat match goal with
         | |- context [be_bytes ?n (be_decode ?l)] =>
             change (be_bytes n (be_decode l))
               with (be_bytes (length l) (be_decode l));
             rewrite (be_bytes_be_decode l)
         end.
  reflexivity.
Qed.

(** X1: what [fromBytes] decodes packs back to the bytes it was given: the
    header fields pack to the first 24 bytes, and these followed by the
    payload are the datagram. *)
Theorem fromBytes_packs_back (data : bytes) (i t : Z) (v : bytes)
    (ty c r1 r2 r3 : Z) (payload : bytes) :
  fromBytes data = Ok (i, t, v, ty, c, r1, r2, r3, payload) ->
  struct_pack (i, t, v, ty, c, r1, r2, r3) = Ok (firstn 24 data)
  /\ firstn 24 data ++ payload = data.
Proof.
  intro H. destruct (fromBytes_Ok_decoded data _ H) as [Hlen Hf].
  assert (Hl : length (firstn 24 data) = 24%nat)
    by (rewrite length_firstn; lia).
  unfold decoded in Hf.
  pose proof (unpack_fields_in_range _ Hl) as Hr.
  pose proof (header_bytes_unpack_fields _ Hl) as Hb.
  destruct (unpack_fields (firstn 24 data))
    as [[[[[[[i' t'] v'] ty'] c'] r1'] r2'] r3'].
  injection Hf as -> -> -> -> -> -> -> -> ->.
  split.
  - now rewrite (struct_pack_in_range _ Hr), Hb.
  - apply firstn_skipn.
Qed.

(** X2: every field [fromBytes] returns fits the width it has in the
    header, and the version it returns has 4 bytes. *)
Theorem fromBytes_fields_fit (data : bytes) (i t : Z) (v : bytes)
    (ty c r1 r2 r3 : Z) (payload : bytes) :
  fromBytes data = Ok (i, t, v, ty, c, r1, r2, r3, payload) ->
  0 <= i < 2 ^ 32 /\ 0 <= t < 2 ^ 64 /\ length v = 4%nat
  /\ 0 <= ty < 2 ^ 32 /\ 0 <= c < 2 ^ 8
  /\ 0 <= r1 < 2 ^ 8 /\ 0 <= r2 < 2 ^ 8 /\ 0 <= r3 < 2 ^ 8
  /\ length payload = (length data - 24)%nat.
Proof.
  clear seconds_fit Ack_encodes ackBytes MsgBlockCount zlib_decompress decode_utf8 Ack_reqBody seconds_of_ns self.
  intro H. destruct (fromBytes_Ok_decoded data _ H) as [Hlen Hf].
  assert (Hl : length (firstn 24 data) = 24%nat)
    by (rewrite length_firstn; lia).
  pose proof (f_equal fields_data Hf) as Hp.
  change (payload = skipn 24 data) in Hp.
  unfold decoded in Hf.
  pose proof (unpack_fields_in_range _ Hl) as Hr.
  destruct (unpack_fields (firstn 24 data))
    as [[[[[[[i' t'] v'] ty'] c'] r1'] r2'] r3'].
  injection Hf as -> -> -> -> -> -> -> -> _.
  cbn [header_in_range] in Hr. rewrite Hp, length_skipn. tauto.
Qed.

Lemma pack_uint_error (w : nat) (v : Z) :
  ~ 0 <= v < 256 ^ Z.of_nat w -> pack_uint w v = Err struct_error.
Proof.
  intro H. unfold pack_uint.
  destruct (Z.leb_spec 0 v); [|reflexivity].
  destruct (Z.ltb_spec v (256 ^ Z.of_nat w)); [lia | reflexivity].
Qed.

Lemma pack_uint_dec (w : nat) (v : Z) :
  {0 <= v < 256 ^ Z.of_nat w} + {~ 0 <= v < 256 ^ Z.of_nat w}.
Proof.
  destruct (Z_le_dec 0 v); [|right; lia].
  destruct (Z_lt_dec v (256 ^ Z.of_nat w)); [left | right]; lia.
Qed.

Lemma toBytes_struct_error (request : OmniLogicRequest) (clock : Z) :
  ~ (0 <= msgId request < 2 ^ 32
     /\ 0 <= seconds_of_ns clock < 2 ^ 64
     /\ 0 <= msgType request < 2 ^ 32
     /\ 0 <= clientType request < 2 ^ 8) ->
  toBytes seconds_of_ns request clock = Err struct_error.
Proof.
  clear seconds_fit Ack_encodes ackBytes MsgBlockCount zlib_decompress decode_utf8 Ack_reqBody self.
  intro H. unfold toBytes, struct_pack.
  destruct (pack_uint_dec 4 (msgId request)) as [Hi|Hi];
    [rewrite (pack_uint_ok _ _ Hi) | now rewrite (pack_uint_error _ _ Hi)].
  destruct (pack_uint_dec 8 (seconds_of_ns clock)) as [Ht|Ht];
    [rewrite (pack_uint_ok _ _ Ht) | now rewrite (pack_uint_error _ _ Ht)].
  destruct (pack_uint_dec 4 (msgType request)) as [Hty|Hty];
    [rewrite (pack_uint_ok _ _ Hty) | now rewrite (pack_uint_error _ _ Hty)].
  destruct (pack_uint_dec 1 (clientType request)) as [Hc|Hc];
    [rewrite (pack_uint_ok _ _ Hc) | now rewrite (pack_uint_error _ _ Hc)].
  exfalso. apply H. cbn [Z.of_nat Pos.of_succ_nat Pos.succ] in *.
  change (256 ^ 4) with (2 ^ 32) in *. change (256 ^ 8) with (2 ^ 64) in *.
  change (256 ^ 1) with (2 ^ 8) in *. tauto.
Qed.

(** X3: [toBytes] raises [struct.error] as soon as the message id, the
    clock's seconds, the message type or the client type does not fit its
    field; it does not truncate. *)
Theorem toBytes_out_of_range (request : OmniLogicRequest) (clock : Z) :
  ~ (0 <= msgId request < 2 ^ 32
     /\ 0 <= seconds_of_ns clock < 2 ^ 64
     /\ 0 <= msgType request < 2 ^ 32
     /\ 0 <= clientType request < 2 ^ 8) ->
  toBytes seconds_of_ns request clock = Err struct_error.
Proof. exact (toBytes_struct_error request clock). Qed.

Lemma pack_4s_length (v : bytes) : length (pack_4s v) = 4%nat.
Proof.
  unfold pack_4s. rewrite length_firstn, length_app, repeat_length. lia.
Qed.

(** X4: a version that has not 4 bytes does not make [toBytes] fail: the
    frame still has a 24-byte header, and the version [fromBytes] reads
    from it is the request's version cut to 4 bytes or filled with null
    bytes up to 4. *)
Theorem toBytes_pads_version (request : OmniLogicRequest) (clock : Z) :
  0 <= msgId request < 2 ^ 32 ->
  0 <= seconds_of_ns clock < 2 ^ 64 ->
  0 <= msgType request < 2 ^ 32 ->
  0 <= clientType request < 2 ^ 8 ->
  exists wire,
    toBytes seconds_of_ns request clock = Ok wire
    /\ length wire = (24 + length (extraData request))%nat
    /\ fromBytes wire
       = Ok (msgId request, seconds_of_ns clock,
             firstn 4 (version request ++ [x00; x00; x00; x00]),
             msgType request, clientType request, 0, 0, 0,
             extraData request).
Proof.
  intros Hi Ht Hty Hc.
  set (h := (msgId request, seconds_of_ns clock, pack_4s (version request),
             msgType request, clientType request, 0, 0, 0) : Header).
  assert (Hr : header_in_range h).
  { unfold h. cbn [header_in_range]. rewrite pack_4s_length. lia. }
  exists (header_bytes h ++ extraData request). repeat split.
  - unfold toBytes, struct_pack.
    rewrite (pack_uint_ok 4 (msgId request)),
      (pack_uint_ok 8 (seconds_of_ns clock)),
      (pack_uint_ok 4 (msgType request)),
      (pack_uint_ok 1 (clientType request)), (pack_uint_ok 1 0)
      by (simpl Z.of_nat; lia).
    reflexivity.
  - now rewrite length_app, (header_bytes_length h Hr).
  - now rewrite (fromBytes_header_bytes h (extraData request) Hr).
Qed.

(** ** More on the text a request carries *)

Lemma utf8_byte_not_null (n : N) (b : byte) :
  utf8_byte n = Some b -> b = x00 -> n = 0%N.
Proof.
  unfold utf8_byte. intros H ->. now apply Byte.to_of_N in H.
Qed.

Lemma utf8_encode_char_null (c : N) (bs : bytes) :
  utf8_encode_char c = Some bs -> In x00 bs -> c = 0%N.
Proof.
  unfold utf8_encode_char. intros H Hin.
  repeat match type of H with
         | (if ?b then _ else _) = _ => destruct b
         | match utf8_byte ?n with _ => _ end = _ =>
             let E := fresh "E" in
             destruct (utf8_byte n) eqn:E
         | option_map _ (utf8_byte ?n) = _ =>
             let E := fresh "E" in
             destruct (utf8_byte n) eqn:E; cbn [option_map] in H
         end; try discriminate H;
    injection H as <-; cbn [In] in Hin;
    repeat match goal with
           | H0 : _ \/ _ |- _ => destruct H0
           | H0 : False |- _ => destruct H0
           | H0 : ?b = x00, E : utf8_byte _ = Some ?b |- _ =>
               apply (utf8_byte_not_null _ _ E) in H0
           end;
    try assumption;
    match goal with
    | H0 : (_ + _)%N = 0%N |- _ =>
        apply N.eq_add_0 in H0; destruct H0 as [H0 _]; discriminate H0
    end.
Qed.

Lemma utf8_encode_null (text : str) :
  forall body,
    utf8_encode text = Some body -> (In x00 body <-> In 0%N text).
Proof.
  induction text as [|c text IH]; intros body H; cbn [utf8_encode] in H.
  - injection H as <-. reflexivity.
  - destruct (utf8_encode_char c) as [bs|] eqn:Ec; [|discriminate].
    destruct (utf8_encode text) as [more|]; [|discriminate].
    injection H as <-. rewrite in_app_iff. cbn [In].
    rewrite (IH more eq_refl). split.
    + intros [Hb | Hm]; [left | right; assumption].
      exact (utf8_encode_char_null c bs Ec Hb).
    + intros [-> | Hm]; [left | right; assumption].
      cbn in Ec. injection Ec as <-. now left.
Qed.

(** X5: the payload [OmniLogicRequest] holds has a null byte only where
    the text it was made from has the character U+0000; for a text without
    one, the null byte [_sendRequest] appends is the only one in the
    payload sent. *)
Theorem request_payload_null (id ty : Z) (text : str) (ct : Z)
    (request : OmniLogicRequest) :
  OmniLogicRequest_init id ty text ct = Ok request ->
  (In x00 (extraData request) <-> In 0%N text).
Proof.
  unfold OmniLogicRequest_init. intro H.
  destruct (utf8_encode text) as [payload|] eqn:E; [|discriminate H].
  change (utf8_encode (literal "1.19")) with (Some VERSION_BYTES) in H.
  injection H as <-. cbn [extraData]. now apply utf8_encode_null.
Qed.

(** ** More on [_sendRequest] *)

Lemma random_randrange_run (w : World) :
  random_randrange (2 ^ 32) w = (Return (drawn_id w), after_draw w).
Proof. unfold random_randrange, drawn_id. now destruct (entropy w). Qed.

Lemma utf8_encode_app_None (a b : str) :
  utf8_encode a = None -> utf8_encode (a ++ b) = None.
Proof.
  induction a as [|c a IH]; cbn [app utf8_encode]; [discriminate|].
  destruct (utf8_encode_char c) as [bs|]; [|reflexivity].
  destruct (utf8_encode a) as [more|]; [discriminate|].
  intros _. now rewrite IH.
Qed.

(** X6: with a message type that does not fit 32 bits [_sendRequest]
    raises [struct.error] once it has drawn its id: nothing is sent and
    nothing is read. *)
Theorem sendRequest_bad_type (w : World) (ty : Z) (text : str)
    (body : bytes) :
  ~ 0 <= ty < 2 ^ 32 ->
  utf8_encode text = Some body ->
  _sendRequest seconds_of_ns F self ty text w
  = (Raise struct_error, after_draw w).
Proof.
  clear seconds_fit Ack_encodes ackBytes MsgBlockCount zlib_decompress decode_utf8 Ack_reqBody.
  intros Hty Hbody. unfold _sendRequest. unfold bind at 1.
  rewrite random_randrange_run.
  assert (Henc : utf8_encode
                   (text ++ match text with [] => [] | _ => [0%N] end)
                 = Some match text with [] => [] | _ => body ++ [x00] end).
  { destruct text as [|c t].
    - reflexivity.
    - now apply utf8_encode_app. }
  unfold OmniLogicRequest_init. rewrite Henc.
  change (utf8_encode (literal "1.19")) with (Some VERSION_BYTES).
  unfold bind at 1. cbn [lift ret]. unfold bind at 1.
  unfold send_request, bind at 1, time_time_ns.
  rewrite toBytes_struct_error; [reflexivity|].
  cbn [msgId msgType clientType]. tauto.
Qed.

(** X7: with a text that has no UTF-8 form [_sendRequest] raises
    [UnicodeEncodeError] once it has drawn its id: nothing is sent and
    nothing is read. *)
Theorem sendRequest_unencodable (w : World) (ty : Z) (text : str) :
  utf8_encode text = None ->
  _sendRequest seconds_of_ns F self ty text w
  = (Raise UnicodeEncodeError, after_draw w).
Proof.
  intros Hbody. unfold _sendRequest. unfold bind at 1.
  rewrite random_randrange_run.
  unfold OmniLogicRequest_init.
  now rewrite (utf8_encode_app_None text _ Hbody).
Qed.

(** ** More on [_waitForData] *)

(** X8: a datagram of fewer than 24 bytes that is read while the deadline
    test of the loop passes ends [_waitForData] with [struct.error]: only
    [socket.timeout] is caught in the loop. The frames with other ids
    before it were dropped, what comes after it is left unread and nothing
    was sent. *)
Theorem waitForData_malformed (w : World) (msgId : Z)
    (strays : list (Z * bytes)) (wait : Z) (data : bytes)
    (rest : list (Z * bytes)) :
  msgId <> -1 ->
  inbox w = strays ++ (wait, data) :: rest ->
  Forall (stray msgId) strays ->
  (length data < 24)%nat ->
  forallb (window_open F self (time_ns w))
    (readings (time_ns w) (strays ++ [(wait, data)])) = true ->
  _waitForData F self msgId w
  = (Raise struct_error,
     {| time_ns := time_ns w + total_wait (strays ++ [(wait, data)]);
        entropy := entropy w;
        timeout := Some RECV_SLICE;
        inbox := rest;
        outbox := outbox w |}).
Proof.
  intros Hm Hin Hs Hlen Hop.
  destruct (_waitForData_reads w msgId strays wait data rest Hm Hin Hs Hop)
    as (fuel' & Hrun).
  rewrite Hrun. rewrite fromBytes_cases.
  destruct (Nat.ltb_spec (length data) 24) as [_|Hge]; [reflexivity | lia].
Qed.

(** X9: whatever comes in, the clock does not go back during
    [_waitForData], and the call ends at the reading it started at or at
    most one 0.5 second receive slice after a reading at which its deadline
    test [time.time() < start + self.responseTimeout] passed. *)
Theorem waitForData_duration (w w' : World) (msgId : Z)
    (o : Outcome Fields) :
  _waitForData F self msgId w = (o, w') ->
  time_ns w <= time_ns w'
  /\ one_slice_past F self (time_ns w) (time_ns w').
Proof.
  clear seconds_fit Ack_encodes ackBytes MsgBlockCount zlib_decompress decode_utf8 Ack_reqBody seconds_of_ns.
  intros H.
  destruct (_waitForData_bounded w w' msgId o H) as (_ & _ & Hle & Hpast).
  auto.
Qed.

(** X10: [_waitForData] leaves the socket with the 0.5 second timeout it
    has set, whatever the outcome, and does not touch the random
    generator: the receives of a [_receiveFile] that follows time out after
    0.5 seconds each, not after [responseTimeout]. *)
Theorem waitForData_leaves_timeout (w w' : World) (msgId : Z)
    (o : Outcome Fields) :
  _waitForData F self msgId w = (o, w') ->
  timeout w' = Some RECV_SLICE /\ entropy w' = entropy w.
Proof.
  clear seconds_fit Ack_encodes ackBytes MsgBlockCount zlib_decompress decode_utf8 Ack_reqBody seconds_of_ns.
  intro H.
  destruct (_waitForData_bounded w w' msgId o H) as (Hto & Hen & _).
  auto.
Qed.


(** ** More on [_receiveFile] and the exchanges *)

Lemma _recv_unready (w : World) (t : Z) :
  timeout w = Some t ->
  arrives_after t (inbox w) ->
  exists w',
    _recv w = (Raise socket_timeout, w')
    /\ outbox w' = outbox w
    /\ time_ns w' = time_ns w + t.
Proof.
  intros Hto Hl. unfold _recv, bind, recvfrom. rewrite Hto.
  destruct (inbox w) as [|[wait data] rest]; cbn [arrives_after fst] in Hl.
  - eexists. repeat split.
  - destruct (Z.ltb_spec wait t); [lia|]. eexists. repeat split.
Qed.

(** X12: a first datagram of fewer than 24 bytes ends [_receiveFile] with
    [struct.error]: the datagram is gone, nothing is acknowledged and
    nothing more is read. *)
Theorem receiveFile_malformed (w : World) (wait : Z) (data : bytes)
    (rest : list (Z * bytes)) :
  inbox w = (wait, data) :: rest ->
  readable (timeout w) wait ->
  (length data < 24)%nat ->
  _receiveFile seconds_of_ns Ack_reqBody MsgBlockCount zlib_decompress
    decode_utf8 self w
  = (Raise struct_error, after_recv w (Z.max 0 wait) rest).
Proof.
  intros Hin Hr Hlen. unfold _receiveFile, _receiveFile_assemble.
  unfold bind at 1. unfold bind at 1.
  rewrite (_recv_ready w wait data rest Hin Hr), fromBytes_cases.
  destruct (Nat.ltb_spec (length data) 24); [reflexivity | lia].
Qed.

Lemma receive_blocks_short (t : Z) (rest : list (Z * bytes))
    (blocks : list (Z * bytes)) :
  forall (n : nat) (acc : bytes) (w : World),
    inbox w = blocks ++ rest ->
    Forall (available (timeout w)) blocks ->
    (length blocks < n)%nat ->
    timeout w = Some t ->
    arrives_after t rest ->
    exists w',
      receive_blocks seconds_of_ns Ack_reqBody self n acc w
      = (Raise socket_timeout, w')
      /\ outbox w'
         = outbox w ++ acks_for seconds_of_ns ackBytes
                         (controllerIpAndPort self) (time_ns w) blocks.
Proof.
  induction blocks as [|[wait data] blocks IH];
    intros n acc w Hin Hav Hn Hto Hl.
  - destruct n as [|n]; [cbn in Hn; lia|].
    cbn [app] in Hin. rewrite <- Hin in Hl.
    destruct (_recv_unready w t Hto Hl) as (w' & Hrun & Ho & _).
    cbn [receive_blocks]. unfold bind at 1. rewrite Hrun.
    exists w'. cbn [acks_for]. now rewrite app_nil_r.
  - destruct n as [|n]; [cbn in Hn; lia|].
    inversion Hav as [|x l [Hr Hlen] Hav' E]; subst x l.
    cbn [fst snd] in Hr, Hlen. cbn [app] in Hin.
    cbn [receive_blocks]. unfold bind at 1.
    rewrite (_recv_ready w wait data (blocks ++ rest) Hin Hr).
    rewrite (fromBytes_decoded data Hlen). cbn [lift ret].
    cbn [acks_for fst snd].
    pose proof (decoded_msgId_range data) as Hid.
    destruct (decoded data) as [[[[[[[[i ts] v] ty] c] r1] r2] r3] d].
    cbn [fields_msgId] in *.
    unfold bind at 1. rewrite (_sendAck_run i _ Hid).
    destruct (IH n (acc ++ skipn 8 d)
                (after_send (after_recv w (Z.max 0 wait) (blocks ++ rest))
                   (ack_wire seconds_of_ns ackBytes i
                      (time_ns (after_recv w (Z.max 0 wait) (blocks ++ rest))))
                   (controllerIpAndPort self)))
      as (w' & Hrun & Ho); try assumption; try reflexivity.
    + cbn [length] in Hn. lia.
    + exists w'. split; [exact Hrun|]. rewrite Ho.
      cbn [outbox time_ns after_send after_recv].
      now rewrite <- app_assoc.
Qed.

(** X13: when fewer blocks can be read than the lead frame announces,
    [_receiveFile] raises [socket.timeout] 0.5 seconds after the last one
    it read: no text is returned for the blocks it has, and the lead frame
    and each block read have been acknowledged. *)
Theorem receiveFile_blocks_missing (w : World) (t wait : Z) (lead : bytes)
    (blocks rest : list (Z * bytes)) (N : Z) :
  timeout w = Some t ->
  inbox w = (wait, lead) :: blocks ++ rest ->
  Forall (available (timeout w)) ((wait, lead) :: blocks) ->
  fields_msgType (decoded lead) = MSP_LEADMESSAGE_MESSAGE_TYPE ->
  MsgBlockCount (removelast (skipn 24 lead)) = Ok N ->
  (length blocks < Z.to_nat N)%nat ->
  arrives_after t rest ->
  exists w',
    _receiveFile seconds_of_ns Ack_reqBody MsgBlockCount zlib_decompress
      decode_utf8 self w
    = (Raise socket_timeout, w')
    /\ outbox w'
       = outbox w ++ acks_for seconds_of_ns ackBytes
                       (controllerIpAndPort self) (time_ns w)
                       ((wait, lead) :: blocks).
Proof.
  intros Hto Hin Hav Hty HN Hlen Hl.
  inversion Hav as [|x l Hav1 Hav' E]; subst x l.
  unfold _receiveFile. unfold bind at 1.
  rewrite (_receiveFile_assemble_run w wait lead (blocks ++ rest) Hin Hav1).
  cbv zeta. rewrite Hty, Z.eqb_refl.
  change (fields_data (decoded lead)) with (skipn 24 lead). rewrite HN.
  destruct (receive_blocks_short t rest blocks (Z.to_nat N) []
              (after_first seconds_of_ns ackBytes (controllerIpAndPort self)
                 w wait lead (blocks ++ rest)))
    as (w' & Hrun & Ho); try assumption; try reflexivity.
  rewrite Hrun. exists w'. split; [reflexivity|]. rewrite Ho.
  cbn [outbox time_ns after_first after_send after_recv acks_for fst snd].
  now rewrite <- app_assoc.
Qed.

(** X14: for a lead frame and the blocks it announces, [_receiveFile]
    returns the text of the blocks' payloads joined without their first 8
    bytes, inflated first exactly when the compressed byte of the lead
    frame is 1: the compressed bytes and the message types of the block
    frames play no part. *)
Theorem receiveFile_lead_text (w : World) (wait : Z) (lead : bytes)
    (blocks rest : list (Z * bytes)) (N : Z) :
  inbox w = (wait, lead) :: blocks ++ rest ->
  Forall (available (timeout w)) ((wait, lead) :: blocks) ->
  fields_msgType (decoded lead) = MSP_LEADMESSAGE_MESSAGE_TYPE ->
  MsgBlockCount (removelast (skipn 24 lead)) = Ok N ->
  length blocks = Z.to_nat N ->
  exists w',
    _receiveFile seconds_of_ns Ack_reqBody MsgBlockCount zlib_decompress
      decode_utf8 self w
    = (outcome_of
         (if fields_compressed (decoded lead) =? 1
          then (plain <~ zlib_decompress (block_payloads blocks);
                decode_utf8 plain)%res
          else decode_utf8 (block_payloads blocks)),
       w')
    /\ inbox w' = rest.
Proof.
  intros Hin Hav Hty HN Hlen.
  inversion Hav as [|x l Hav1 Hav' E]; subst x l.
  unfold _receiveFile. unfold bind at 1.
  rewrite (_receiveFile_assemble_run w wait lead (blocks ++ rest) Hin Hav1).
  cbv zeta. rewrite Hty, Z.eqb_refl.
  change (fields_data (decoded lead)) with (skipn 24 lead). rewrite HN.
  rewrite <- Hlen.
  rewrite (receive_blocks_run blocks [] _ rest); [| reflexivity | exact Hav'].
  unfold msgCompressed_of. rewrite Hty.
  change (MSP_LEADMESSAGE_MESSAGE_TYPE =? MSP_TELEMETRYUPDATE_MESSAGE_TYPE)
    with false.
  rewrite orb_false_r. cbn [app].
  destruct (fields_compressed (decoded lead) =? 1).
  - unfold bind. cbn [Res_bind].
    destruct (zlib_decompress (block_payloads blocks)) as [plain|e];
      cbn [lift ret raise outcome_of Res_bind].
    + destruct (decode_utf8 plain); eexists; split; reflexivity.
    + eexists; split; reflexivity.
  - unfold bind. cbn [ret].
    destruct (decode_utf8 (block_payloads blocks));
      eexists; split; reflexivity.
Qed.

(** X15: a response that is neither a lead message nor compressed and whose
    payload has 8 bytes or fewer gives the text of no bytes at all: the
    cut of the first 8 bytes does not fail on a short payload. *)
Theorem receiveFile_short_payload (w : World) (wait : Z) (data : bytes)
    (more : list (Z * bytes)) :
  inbox w = (wait, data) :: more ->
  readable (timeout w) wait ->
  (24 <= length data <= 32)%nat ->
  fields_msgType (decoded data) <> MSP_LEADMESSAGE_MESSAGE_TYPE ->
  msgCompressed_of (decoded data) = false ->
  _receiveFile seconds_of_ns Ack_reqBody MsgBlockCount zlib_decompress
    decode_utf8 self w
  = (outcome_of (decode_utf8 []),
     after_first seconds_of_ns ackBytes (controllerIpAndPort self)
       w wait data more).
Proof.
  intros Hin Hr Hlen Hnl Hc.
  unfold _receiveFile. unfold bind at 1.
  rewrite (_receiveFile_assemble_run w wait data more Hin (conj Hr (proj1 Hlen))).
  cbv zeta. rewrite Hc.
  destruct (Z.eqb_spec (fields_msgType (decoded data))
              MSP_LEADMESSAGE_MESSAGE_TYPE) as [E|_]; [contradiction|].
  change (fields_data (decoded data)) with (skipn 24 data).
  rewrite skipn_skipn.
  rewrite (skipn_all2 data) by (cbn; lia).
  unfold bind. cbn [ret]. destruct (decode_utf8 []); reflexivity.
Qed.

(** X16: a lead frame that announces no block, or a negative number of
    them, makes [_receiveFile] read nothing more: the buffer is empty and
    what follows the lead frame stays unread. *)
Theorem receiveFile_no_blocks (w : World) (wait : Z) (lead : bytes)
    (more : list (Z * bytes)) (N : Z) :
  inbox w = (wait, lead) :: more ->
  available (timeout w) (wait, lead) ->
  fields_msgType (decoded lead) = MSP_LEADMESSAGE_MESSAGE_TYPE ->
  MsgBlockCount (removelast (skipn 24 lead)) = Ok N ->
  N <= 0 ->
  _receiveFile_assemble seconds_of_ns Ack_reqBody MsgBlockCount self w
  = (Return (fields_compressed (decoded lead) =? 1, []),
     after_first seconds_of_ns ackBytes (controllerIpAndPort self)
       w wait lead more).
Proof.
  intros Hin Hav Hty HN Hle.
  rewrite (_receiveFile_assemble_run w wait lead more Hin Hav).
  cbv zeta. rewrite Hty, Z.eqb_refl.
  change (fields_data (decoded lead)) with (skipn 24 lead). rewrite HN.
  replace (Z.to_nat N) with 0%nat by lia. cbn [receive_blocks]. unfold ret.
  unfold msgCompressed_of. rewrite Hty.
  change (MSP_LEADMESSAGE_MESSAGE_TYPE =? MSP_TELEMETRYUPDATE_MESSAGE_TYPE)
    with false.
  now rewrite orb_false_r.
Qed.

(** X17: when the XML lines fail on the payload of a lead frame,
    [_receiveFile] raises what they raise: the lead frame has been
    acknowledged and no block is read. *)
Theorem receiveFile_bad_lead (w : World) (wait : Z) (lead : bytes)
    (more : list (Z * bytes)) (e : PyExn) :
  inbox w = (wait, lead) :: more ->
  available (timeout w) (wait, lead) ->
  fields_msgType (decoded lead) = MSP_LEADMESSAGE_MESSAGE_TYPE ->
  MsgBlockCount (removelast (skipn 24 lead)) = Err e ->
  _receiveFile seconds_of_ns Ack_reqBody MsgBlockCount zlib_decompress
    decode_utf8 self w
  = (Raise e,
     after_first seconds_of_ns ackBytes (controllerIpAndPort self)
       w wait lead more).
Proof.
  intros Hin Hav Hty HN.
  unfold _receiveFile. unfold bind at 1.
  rewrite (_receiveFile_assemble_run w wait lead more Hin Hav).
  cbv zeta. rewrite Hty, Z.eqb_refl.
  change (fields_data (decoded lead)) with (skipn 24 lead). now rewrite HN.
Qed.

(** X18: [setEquipment], [setFilterSpeed] and [setLightShow] send their
    request, wait for the frame that carries its id, and return: they
    acknowledge nothing, and whatever the controller sends after that frame
    stays unread on the socket. *)
Theorem command_returns (w : World) (msgType : Z) (reqBody : str)
    (body : bytes) (strays : list (Z * bytes)) (wm : Z) (matched : bytes)
    (rest : list (Z * bytes)) :
  0 <= msgType < 2 ^ 32 ->
  utf8_encode reqBody = Some body ->
  inbox w = strays ++ (wm, matched) :: rest ->
  Forall (stray (drawn_id w)) strays ->
  (24 <= length matched)%nat ->
  fields_msgId (decoded matched) = drawn_id w ->
  forallb (window_open F self (time_ns w))
    (readings (time_ns w) (strays ++ [(wm, matched)])) = true ->
  command seconds_of_ns F self msgType reqBody w
  = (Return tt,
     {| time_ns := time_ns w + total_wait (strays ++ [(wm, matched)]);
        entropy := tl (entropy w);
        timeout := Some RECV_SLICE;
        inbox := rest;
        outbox := outbox w
                  ++ [(request_wire seconds_of_ns w msgType reqBody body,
                       controllerIpAndPort self)] |}).
Proof.
  intros Hty Hbody Hin Hs Hlm Hid Hop.
  unfold command. unfold bind at 1. cbn [getSock].
  set (w0 := {| time_ns := time_ns w; entropy := entropy w;
                timeout := None; inbox := inbox w; outbox := outbox w |}).
  exact (_sendRequest_returns w0 msgType reqBody body strays wm matched rest
           Hty Hbody Hin Hs Hlm Hid Hop).
Qed.

(** X19: the response window covers only the wait for the frame with the
    id of the request. When nothing can be read within 0.5 seconds after
    that frame, the exchange raises [socket.timeout], however long
    [responseTimeout] is; a response frame that came before the matching
    frame was dropped with the frames of other ids, and only the request
    has been sent. *)
Theorem exchange_response_late (w : World) (msgType : Z) (reqBody : str)
    (body : bytes) (strays : list (Z * bytes)) (wm : Z) (matched : bytes)
    (rest : list (Z * bytes)) :
  0 <= msgType < 2 ^ 32 ->
  utf8_encode reqBody = Some body ->
  inbox w = strays ++ (wm, matched) :: rest ->
  Forall (stray (drawn_id w)) strays ->
  (24 <= length matched)%nat ->
  fields_msgId (decoded matched) = drawn_id w ->
  forallb (window_open F self (time_ns w))
    (readings (time_ns w) (strays ++ [(wm, matched)])) = true ->
  arrives_after RECV_SLICE rest ->
  exists w',
    exchange seconds_of_ns Ack_reqBody MsgBlockCount zlib_decompress
      decode_utf8 F self msgType reqBody w
    = (Raise socket_timeout, w')
    /\ outbox w'
       = outbox w ++ [(request_wire seconds_of_ns w msgType reqBody body,
                       controllerIpAndPort self)]
    /\ time_ns w'
       = time_ns w + total_wait (strays ++ [(wm, matched)]) + RECV_SLICE.
Proof.
  intros Hty Hbody Hin Hs Hlm Hid Hop Hl.
  rewrite (exchange_after_match w msgType reqBody body strays wm matched rest
             Hty Hbody Hin Hs Hlm Hid Hop).
  unfold _receiveFile, _receiveFile_assemble.
  unfold bind at 1. unfold bind at 1.
  match goal with
  | |- context [_recv ?w2] =>
      destruct (_recv_unready w2 RECV_SLICE eq_refl Hl)
        as (w' & Hrun & Ho & Htime)
  end.
  rewrite Hrun. exists w'. split; [reflexivity|].
  split; [exact Ho | exact Htime].
Qed.

End TransportFacts.

(** ** The theorems at work on sample runs *)

Lemma seconds_sample_fit (ns : Z) : 0 <= seconds_sample ns < 2 ^ 64.
Proof. unfold seconds_sample. apply Z.mod_pos_bound. lia. Qed.

Lemma Ack_sample_encodes : utf8_encode Ack_reqBody_sample = Some Ack_bytes_sample.
Proof. vm_compute. reflexivity. Qed.

Lemma waitForData_matches_witness :
  (forall f w',
      _waitForData binary64 api_sample 7 world_strays = (Return f, w') ->
      fields_msgId f = 7
      /\ (exists data,
            In data (map snd (inbox world_strays)) /\ fromBytes data = Ok f)
      /\ outbox w' = outbox world_strays)
  /\ _waitForData binary64 api_sample 7 world_strays
     = (Return (decoded (frame_sample 7 ACK_MESSAGE_TYPE 0 [])),
        {| time_ns := 1700000000600000100;
           entropy := [];
           timeout := Some RECV_SLICE;
           inbox := [];
           outbox := [] |})
  /\ exists fuel' r',
       _waitForData binary64 api_sample 7 world_strays
       = wait_loop binary64 api_sample fuel' 7
           (float_time binary64 (time_ns world_strays)) r'
           {| time_ns := 1700000000600000000;
              entropy := [];
              timeout := Some RECV_SLICE;
              inbox := [(100, frame_sample 7 ACK_MESSAGE_TYPE 0 [])];
              outbox := [] |}
       /\ r' <> 7
       /\ (wait_budget (wait_limit api_sample (time_ns world_strays))
             {| time_ns := 1700000000600000000%Z;
                entropy := [];
                timeout := Some RECV_SLICE;
                inbox := [(100%Z, frame_sample 7 ACK_MESSAGE_TYPE 0 [])];
                outbox := [] |} < fuel')%nat.
Proof.
  destruct (waitForData_matches binary64 api_sample world_strays 7)
    as (Hsound & Hskip & Hdrop).
  assert (Hstrays : Forall (stray 7)
                      [(0, frame_sample 5 ACK_MESSAGE_TYPE 0 []);
                       (600000000, frame_sample 6 ACK_MESSAGE_TYPE 0 [])]).
  { repeat constructor.
    - exists (decoded (frame_sample 5 ACK_MESSAGE_TYPE 0 [])).
      split; [vm_compute; reflexivity | vm_compute; discriminate].
    - exists (decoded (frame_sample 6 ACK_MESSAGE_TYPE 0 [])).
      split; [vm_compute; reflexivity | vm_compute; discriminate]. }
  split; [exact Hsound | split].
  - apply (Hskip [(0, frame_sample 5 ACK_MESSAGE_TYPE 0 []);
                  (600000000, frame_sample 6 ACK_MESSAGE_TYPE 0 [])]
             100 (frame_sample 7 ACK_MESSAGE_TYPE 0 []) []
             (decoded (frame_sample 7 ACK_MESSAGE_TYPE 0 []))).
    + lia.
    + reflexivity.
    + exact Hstrays.
    + vm_compute. reflexivity.
    + vm_compute. reflexivity.
    + vm_compute. reflexivity.
  - apply (Hdrop [(0, frame_sample 5 ACK_MESSAGE_TYPE 0 []);
                  (600000000, frame_sample 6 ACK_MESSAGE_TYPE 0 [])]
             [(100, frame_sample 7 ACK_MESSAGE_TYPE 0 [])]).
    + lia.
    + reflexivity.
    + exact Hstrays.
    + vm_compute. reflexivity.
Defined.

(** The deadline test on doubles at the edge of the window: in [world_edge]
    the session waits 0.5 seconds and the frame with id 5 is read one
    nanosecond before they are over; at that reading [time.time()] is
    already the double that [start + self.responseTimeout] is, the test
    fails and [_waitForData] raises with the frame with id 7 unread. *)
Example waitForData_edge_run :
  window_open binary64 api_half (time_ns world_edge)
    (time_ns world_edge + 499999999) = false
  /\ _waitForData binary64 api_half 7 world_edge
     = (Raise Exception_,
        {| time_ns := 1700000000499999999;
           entropy := [];
           timeout := Some RECV_SLICE;
           inbox := [(0, frame_sample 7 ACK_MESSAGE_TYPE 0 [])];
           outbox := [] |}).
Proof. vm_compute. split; reflexivity. Qed.

(** Past the window by the clock's count: in [world_odd] the frame with id
    5 is read 50 nanoseconds after the 0.50000015 seconds are over, the
    test on doubles still passes at that reading, and [_waitForData] makes
    one more receive before it raises. *)
Example waitForData_odd_run :
  window_open binary64 api_odd (time_ns world_odd)
    (time_ns world_odd + 500000200) = true
  /\ _waitForData binary64 api_odd 7 world_odd
     = (Raise Exception_,
        {| time_ns := 1700000001000000329;
           entropy := [];
           timeout := Some RECV_SLICE;
           inbox := [];
           outbox := [] |}).
Proof. vm_compute. split; reflexivity. Qed.


(** The run of [_waitForData] in [world_late]: four receives time out, the
    fifth starts 2.0 seconds in, before the deadline at 2.2 seconds, and
    reads the frame 2.4 seconds in. *)
Example waitForData_late_run :
  _waitForData binary64 api_short 7 world_late
  = (Return (decoded (frame_sample 7 ACK_MESSAGE_TYPE 0 [])),
     {| time_ns := 1700000002400000000;
        entropy := [];
        timeout := Some RECV_SLICE;
        inbox := [];
        outbox := [] |}).
Proof. vm_compute. reflexivity. Qed.


Lemma receiveFile_assemble_lead_witness :
  exists w',
    _receiveFile_assemble seconds_sample Ack_reqBody_sample MsgBlockCount_sample
      api_sample world_lead
    = (Return (false, [x41; x42; x43; x44]), w')
    /\ inbox w' = [].
Proof.
  apply (receiveFile_assemble_lead seconds_sample Ack_reqBody_sample
           MsgBlockCount_sample api_sample seconds_sample_fit
           Ack_bytes_sample Ack_sample_encodes world_lead 0
           (frame_sample 9 MSP_LEADMESSAGE_MESSAGE_TYPE 0
              (lead_xml_sample ++ [x00]))
           [(10, frame_sample 10 MSP_BLOCKMESSAGE_MESSAGE_TYPE 0
                   (subheader_sample ++ [x41; x42]));
            (20, frame_sample 11 MSP_BLOCKMESSAGE_MESSAGE_TYPE 0
                   (subheader_sample ++ [x43; x44]))]
           [] 2).
  - reflexivity.
  - repeat constructor; vm_compute; (reflexivity || discriminate).
  - vm_compute. reflexivity.
  - vm_compute. reflexivity.
  - reflexivity.
Defined.

Lemma receive_blocks_any_header_witness :
  exists w',
    receive_blocks seconds_sample Ack_reqBody_sample api_sample 2 [] world_blocks
    = (Return [x41; x42; x43; x44], w')
    /\ inbox w' = [].
Proof.
  apply (receive_blocks_any_header seconds_sample Ack_reqBody_sample api_sample
           seconds_sample_fit Ack_bytes_sample Ack_sample_encodes
           blocks_sample [] world_blocks []).
  - vm_compute. reflexivity.
  - repeat constructor; vm_compute; (reflexivity || discriminate).
Defined.

Lemma receiveFile_acks_each_frame_witness :
  (forall msgId w0 o w0',
      _waitForData binary64 api_sample msgId w0 = (o, w0') -> outbox w0' = outbox w0)
  /\ exists r w' acks,
       _receiveFile_assemble seconds_sample Ack_reqBody_sample
         MsgBlockCount_sample api_sample world_lead
       = (Return r, w')
       /\ outbox w' = outbox world_lead ++ acks
       /\ Forall2 (is_ack_of Ack_bytes_sample (controllerIpAndPort api_sample))
            (inbox world_lead) acks.
Proof.
  apply (receiveFile_acks_each_frame seconds_sample Ack_reqBody_sample
           MsgBlockCount_sample binary64 api_sample seconds_sample_fit
           Ack_bytes_sample Ack_sample_encodes world_lead
           (0, frame_sample 9 MSP_LEADMESSAGE_MESSAGE_TYPE 0
                 (lead_xml_sample ++ [x00]))
           [(10, frame_sample 10 MSP_BLOCKMESSAGE_MESSAGE_TYPE 0
                   (subheader_sample ++ [x41; x42]));
            (20, frame_sample 11 MSP_BLOCKMESSAGE_MESSAGE_TYPE 0
                   (subheader_sample ++ [x43; x44]))]
           []).
  - reflexivity.
  - repeat constructor; vm_compute; (reflexivity || discriminate).
  - vm_compute. exists 2. split; reflexivity.
Defined.

(** The run of [getLogConfig] in [world_unmatched]: the request draws id 7,
    the wait takes the frame with id 7, and the text returned is the one
    the frame with id 9 carries. *)
Example getLogConfig_unmatched_run :
  drawn_id world_unmatched = 7
  /\ fst (getLogConfig seconds_sample Ack_reqBody_sample MsgBlockCount_sample
            zlib_decompress_sample decode_utf8_sample binary64 api_sample
            world_unmatched)
     = Return (literal "OK")
  /\ map (fun sent => option_map (fun f => (fields_msgId f, fields_msgType f))
                        (match fromBytes (fst sent) with
                         | Ok f => Some f
                         | Err _ => None
                         end))
       (outbox (snd (getLogConfig seconds_sample Ack_reqBody_sample
                       MsgBlockCount_sample zlib_decompress_sample
                       decode_utf8_sample binary64 api_sample world_unmatched)))
     = [Some (7, REQUEST_LOG_CONFIG_MESSAGE_TYPE); Some (9, XMLACK_MESSAGE_TYPE)].
Proof. vm_compute. repeat split. Qed.

(** C4 as stated fails: in [world_unmatched] the exchange completes and the
    frame with id 7, which [_waitForData] matched to the request, is never
    acknowledged; the only acknowledgment sent carries id 9. *)
Lemma receiveFile_acks_each_frame_counterexample :
  ~ (forall w msgType reqBody text w',
        exchange seconds_sample Ack_reqBody_sample MsgBlockCount_sample
          zlib_decompress_sample decode_utf8_sample binary64 api_sample
          msgType reqBody w
        = (Return text, w') ->
        forall d,
          In d (inbox w) ->
          fromBytes (snd d) = Ok (decoded (snd d)) ->
          fields_msgId (decoded (snd d)) = drawn_id w ->
          Exists (is_ack_of Ack_bytes_sample (controllerIpAndPort api_sample) d)
            (outbox w')).
Proof.
  intro H.
  pose proof (H world_unmatched REQUEST_LOG_CONFIG_MESSAGE_TYPE []
                (literal "OK")
                (snd (exchange seconds_sample Ack_reqBody_sample
                        MsgBlockCount_sample zlib_decompress_sample
                        decode_utf8_sample binary64 api_sample
                        REQUEST_LOG_CONFIG_MESSAGE_TYPE [] world_unmatched)))
    as H0.
  assert (Hrun : exchange seconds_sample Ack_reqBody_sample
                   MsgBlockCount_sample zlib_decompress_sample
                   decode_utf8_sample binary64 api_sample
                   REQUEST_LOG_CONFIG_MESSAGE_TYPE [] world_unmatched
                 = (Return (literal "OK"),
                    snd (exchange seconds_sample Ack_reqBody_sample
                           MsgBlockCount_sample zlib_decompress_sample
                           decode_utf8_sample binary64 api_sample
                           REQUEST_LOG_CONFIG_MESSAGE_TYPE [] world_unmatched)))
    by (vm_compute; reflexivity).
  specialize (H0 Hrun (0, frame_sample 7 ACK_MESSAGE_TYPE 0 [])).
  assert (Hin : In (0, frame_sample 7 ACK_MESSAGE_TYPE 0 [])
                  (inbox world_unmatched)) by (left; reflexivity).
  assert (Hok : fromBytes (snd (0, frame_sample 7 ACK_MESSAGE_TYPE 0 []))
                = Ok (decoded (snd (0, frame_sample 7 ACK_MESSAGE_TYPE 0 []))))
    by (vm_compute; reflexivity).
  assert (Hid : fields_msgId
                  (decoded (snd (0, frame_sample 7 ACK_MESSAGE_TYPE 0 [])))
                = drawn_id world_unmatched) by (vm_compute; reflexivity).
  specialize (H0 Hin Hok Hid).
  apply Exists_exists in H0. destruct H0 as (sent & Hsent & _ & ts & Hack).
  vm_compute in Hsent.
  destruct Hsent as [<- | [<- | []]]; vm_compute in Hack; discriminate Hack.
Qed.

Lemma sendRequest_frame_witness :
  exists wire,
    outbox (snd (_sendRequest seconds_sample binary64 api_sample GETTELEMETRY_MESSAGE_TYPE
                   (literal "A") world_unmatched))
    = outbox world_unmatched ++ [(wire, controllerIpAndPort api_sample)]
    /\ fromBytes wire
       = Ok (7, 1700000000, VERSION_BYTES, GETTELEMETRY_MESSAGE_TYPE,
             0, 0, 0, 0, [x41; x00]).
Proof.
  apply (sendRequest_frame seconds_sample binary64 api_sample
           seconds_sample_fit
           world_unmatched GETTELEMETRY_MESSAGE_TYPE (literal "A") [x41]).
  - vm_compute. split; [discriminate | reflexivity].
  - vm_compute. reflexivity.
Defined.

Lemma receiveFile_decompress_witness :
  true = (fields_compressed
            (decoded (frame_sample 9 GETTELEMETRY_MESSAGE_TYPE 1 [x41; x42])) =? 1)
         || (fields_msgType
               (decoded (frame_sample 9 GETTELEMETRY_MESSAGE_TYPE 1 [x41; x42]))
             =? MSP_TELEMETRYUPDATE_MESSAGE_TYPE)
  /\ _receiveFile seconds_sample Ack_reqBody_sample MsgBlockCount_sample
       zlib_decompress_sample decode_utf8_sample api_sample world_compressed
     = (Raise zlib_error,
        snd (_receiveFile_assemble seconds_sample Ack_reqBody_sample
               MsgBlockCount_sample api_sample world_compressed)).
Proof.
  apply (receiveFile_decompress seconds_sample Ack_reqBody_sample
           MsgBlockCount_sample zlib_decompress_sample decode_utf8_sample
           api_sample seconds_sample_fit Ack_bytes_sample Ack_sample_encodes
           world_compressed 0
           (frame_sample 9 GETTELEMETRY_MESSAGE_TYPE 1 [x41; x42]) []
           true [x41; x42]).
  - reflexivity.
  - split; vm_compute; [reflexivity | repeat constructor].
  - vm_compute. reflexivity.
Defined.

Lemma exchange_response_frame_witness :
  (forall w1 f w2,
      _waitForData binary64 api_sample (drawn_id world_command) w1
      = (Return f, w2) ->
      fields_msgId f = drawn_id world_command)
  /\ exchange seconds_sample Ack_reqBody_sample MsgBlockCount_sample
       zlib_decompress_sample decode_utf8_sample binary64 api_sample
       REQUEST_LOG_CONFIG_MESSAGE_TYPE [] world_command
     = _receiveFile seconds_sample Ack_reqBody_sample MsgBlockCount_sample
         zlib_decompress_sample decode_utf8_sample api_sample
         {| time_ns := 1700000000600000100;
            entropy := [];
            timeout := Some RECV_SLICE;
            inbox := [(0, frame_sample 9 GETTELEMETRY_MESSAGE_TYPE 0
                            (subheader_sample ++ [x4f; x4b]))];
            outbox := [(request_wire seconds_sample world_command
                          REQUEST_LOG_CONFIG_MESSAGE_TYPE [] [],
                        controllerIpAndPort api_sample)] |}
  /\ exists w',
       exchange seconds_sample Ack_reqBody_sample MsgBlockCount_sample
         zlib_decompress_sample decode_utf8_sample binary64 api_sample
         REQUEST_LOG_CONFIG_MESSAGE_TYPE [] world_command
       = (Return (literal "OK"), w').
Proof.
  destruct (exchange_response_frame seconds_sample Ack_reqBody_sample
              MsgBlockCount_sample zlib_decompress_sample decode_utf8_sample
              binary64 api_sample seconds_sample_fit Ack_bytes_sample
              Ack_sample_encodes
              world_command REQUEST_LOG_CONFIG_MESSAGE_TYPE [] []
              [(0, frame_sample 5 ACK_MESSAGE_TYPE 0 []);
               (600000000, frame_sample 6 ACK_MESSAGE_TYPE 0 [])]
              100 (frame_sample 7 ACK_MESSAGE_TYPE 0 [])
              [(0, frame_sample 9 GETTELEMETRY_MESSAGE_TYPE 0
                     (subheader_sample ++ [x4f; x4b]))])
    as (Hid & Hrun & Hresp).
  - vm_compute. split; [discriminate | reflexivity].
  - reflexivity.
  - reflexivity.
  - repeat constructor.
    + exists (decoded (frame_sample 5 ACK_MESSAGE_TYPE 0 [])).
      split; [vm_compute; reflexivity | vm_compute; discriminate].
    + exists (decoded (frame_sample 6 ACK_MESSAGE_TYPE 0 [])).
      split; [vm_compute; reflexivity | vm_compute; discriminate].
  - vm_compute. repeat constructor.
  - vm_compute. reflexivity.
  - vm_compute. reflexivity.
  - split; [exact Hid | split; [exact Hrun|]].
    apply (Hresp 0 (frame_sample 9 GETTELEMETRY_MESSAGE_TYPE 0
                      (subheader_sample ++ [x4f; x4b])) []).
    + reflexivity.
    + vm_compute. reflexivity.
    + vm_compute. repeat constructor.
    + vm_compute. discriminate.
Defined.

(** C2 as stated fails: in [world_unmatched] the request draws id 7 and
    [_sendRequest] returns once the frame with id 7 has come; the frame
    [_receiveFile] then reads, whose payload becomes the response, carries
    id 9. *)
Lemma exchange_response_frame_counterexample :
  ~ (forall w msgType reqBody w1 f w2,
        _sendRequest seconds_sample binary64 api_sample msgType reqBody w
        = (Return tt, w1) ->
        _recv w1 = (Return f, w2) ->
        fields_msgId f = drawn_id w).
Proof.
  intro H.
  specialize (H world_unmatched REQUEST_LOG_CONFIG_MESSAGE_TYPE []
                (snd (_sendRequest seconds_sample binary64 api_sample
                        REQUEST_LOG_CONFIG_MESSAGE_TYPE [] world_unmatched))
                (decoded (frame_sample 9 REQUEST_LOG_CONFIG_MESSAGE_TYPE 0
                            (subheader_sample ++ [x4f; x4b])))
                (snd (_recv
                        (snd (_sendRequest seconds_sample binary64 api_sample
                                REQUEST_LOG_CONFIG_MESSAGE_TYPE []
                                world_unmatched))))).
  assert (Hsend : _sendRequest seconds_sample binary64 api_sample
                    REQUEST_LOG_CONFIG_MESSAGE_TYPE [] world_unmatched
                  = (Return tt,
                     snd (_sendRequest seconds_sample binary64 api_sample
                            REQUEST_LOG_CONFIG_MESSAGE_TYPE [] world_unmatched)))
    by (vm_compute; reflexivity).
  assert (Hrecv : _recv
                    (snd (_sendRequest seconds_sample binary64 api_sample
                            REQUEST_LOG_CONFIG_MESSAGE_TYPE [] world_unmatched))
                  = (Return
                       (decoded (frame_sample 9 REQUEST_LOG_CONFIG_MESSAGE_TYPE 0
                                   (subheader_sample ++ [x4f; x4b]))),
                     snd (_recv
                            (snd (_sendRequest seconds_sample binary64 api_sample
                                    REQUEST_LOG_CONFIG_MESSAGE_TYPE []
                                    world_unmatched)))))
    by (vm_compute; reflexivity).
  specialize (H Hsend Hrecv). vm_compute in H. discriminate H.
Qed.

(** ** The further properties at work on sample runs *)

Lemma fromBytes_packs_back_witness :
  struct_pack (7, 1700000000, VERSION_BYTES, ACK_MESSAGE_TYPE, 0, 0, 0, 0)
  = Ok (firstn 24 (frame_sample 7 ACK_MESSAGE_TYPE 0 [x41]))
  /\ firstn 24 (frame_sample 7 ACK_MESSAGE_TYPE 0 [x41]) ++ [x41]
     = frame_sample 7 ACK_MESSAGE_TYPE 0 [x41].
Proof.
  apply (fromBytes_packs_back (frame_sample 7 ACK_MESSAGE_TYPE 0 [x41])
           7 1700000000 VERSION_BYTES ACK_MESSAGE_TYPE 0 0 0 0 [x41]).
  vm_compute. reflexivity.
Defined.

Lemma fromBytes_fields_fit_witness :
  0 <= 7 < 2 ^ 32 /\ 0 <= 1700000000 < 2 ^ 64
  /\ length VERSION_BYTES = 4%nat
  /\ 0 <= ACK_MESSAGE_TYPE < 2 ^ 32 /\ 0 <= 0 < 2 ^ 8
  /\ 0 <= 0 < 2 ^ 8 /\ 0 <= 0 < 2 ^ 8 /\ 0 <= 0 < 2 ^ 8
  /\ length [x41]
     = (length (frame_sample 7 ACK_MESSAGE_TYPE 0 [x41]) - 24)%nat.
Proof.
  apply (fromBytes_fields_fit (frame_sample 7 ACK_MESSAGE_TYPE 0 [x41])
           7 1700000000 VERSION_BYTES ACK_MESSAGE_TYPE 0 0 0 0 [x41]).
  vm_compute. reflexivity.
Defined.

Lemma toBytes_out_of_range_witness :
  toBytes seconds_sample request_wide 1700000000000000000 = Err struct_error.
Proof.
  apply (toBytes_out_of_range seconds_sample request_wide 1700000000000000000).
  cbn [msgId request_wide]. lia.
Defined.

Lemma toBytes_pads_version_witness :
  exists wire,
    toBytes seconds_sample request_short_version 1700000000000000000 = Ok wire
    /\ length wire = (24 + length (extraData request_short_version))%nat
    /\ fromBytes wire
       = Ok (7, seconds_sample 1700000000000000000,
             [x31; x2e; x00; x00], GETTELEMETRY_MESSAGE_TYPE, 1, 0, 0, 0,
             [x41]).
Proof.
  apply (toBytes_pads_version seconds_sample request_short_version
           1700000000000000000);
    vm_compute; (split; [discriminate | reflexivity]).
Defined.

Lemma request_payload_null_witness :
  In x00 [x41; x00; x42] <-> In 0%N [65; 0; 66]%N.
Proof.
  apply (request_payload_null 7 GETTELEMETRY_MESSAGE_TYPE [65; 0; 66]%N 0
           {| msgId := 7; msgType := GETTELEMETRY_MESSAGE_TYPE;
              clientType := 0; extraData := [x41; x00; x42];
              version := VERSION_BYTES |}).
  vm_compute. reflexivity.
Defined.

Lemma sendRequest_bad_type_witness :
  _sendRequest seconds_sample binary64 api_sample (2 ^ 32) (literal "A") world_unmatched
  = (Raise struct_error, after_draw world_unmatched).
Proof.
  apply (sendRequest_bad_type seconds_sample binary64 api_sample
           world_unmatched
           (2 ^ 32) (literal "A") [x41]).
  - lia.
  - vm_compute. reflexivity.
Defined.

Lemma sendRequest_unencodable_witness :
  _sendRequest seconds_sample binary64 api_sample GETTELEMETRY_MESSAGE_TYPE
    [65; 55296]%N world_unmatched
  = (Raise UnicodeEncodeError, after_draw world_unmatched).
Proof.
  apply (sendRequest_unencodable seconds_sample binary64 api_sample
           world_unmatched
           GETTELEMETRY_MESSAGE_TYPE [65; 55296]%N).
  vm_compute. reflexivity.
Defined.

Lemma waitForData_malformed_witness :
  _waitForData binary64 api_sample 7 world_malformed
  = (Raise struct_error,
     {| time_ns := time_ns world_malformed
                   + total_wait [(0, frame_sample 5 ACK_MESSAGE_TYPE 0 []);
                                 (100, [x41; x42])];
        entropy := entropy world_malformed;
        timeout := Some RECV_SLICE;
        inbox := [];
        outbox := outbox world_malformed |}).
Proof.
  apply (waitForData_malformed binary64 api_sample world_malformed 7
           [(0, frame_sample 5 ACK_MESSAGE_TYPE 0 [])] 100 [x41; x42] []).
  - lia.
  - reflexivity.
  - repeat constructor.
    exists (decoded (frame_sample 5 ACK_MESSAGE_TYPE 0 [])).
    split; [vm_compute; reflexivity | vm_compute; discriminate].
  - vm_compute. repeat constructor.
  - vm_compute. reflexivity.
Defined.

Lemma waitForData_duration_witness :
  time_ns world_late <= 1700000002400000000
  /\ one_slice_past binary64 api_short (time_ns world_late)
       1700000002400000000.
Proof.
  apply (waitForData_duration binary64 api_short world_late
           {| time_ns := 1700000002400000000;
              entropy := [];
              timeout := Some RECV_SLICE;
              inbox := [];
              outbox := [] |}
           7 (Return (decoded (frame_sample 7 ACK_MESSAGE_TYPE 0 [])))).
  vm_compute. reflexivity.
Defined.

Lemma waitForData_leaves_timeout_witness :
  timeout (snd (_waitForData binary64 api_short 7 world_silent)) = Some RECV_SLICE
  /\ entropy (snd (_waitForData binary64 api_short 7 world_silent))
     = entropy world_silent.
Proof.
  apply (waitForData_leaves_timeout binary64 api_short world_silent
           (snd (_waitForData binary64 api_short 7 world_silent)) 7
           (fst (_waitForData binary64 api_short 7 world_silent))).
  vm_compute. reflexivity.
Defined.


Lemma receiveFile_malformed_witness :
  _receiveFile seconds_sample Ack_reqBody_sample MsgBlockCount_sample
    zlib_decompress_sample decode_utf8_sample api_sample world_garbage
  = (Raise struct_error,
     after_recv world_garbage (Z.max 0 0)
       [(0, frame_sample 9 GETTELEMETRY_MESSAGE_TYPE 0
              (subheader_sample ++ [x4f; x4b]))]).
Proof.
  apply (receiveFile_malformed seconds_sample Ack_reqBody_sample
           MsgBlockCount_sample zlib_decompress_sample decode_utf8_sample
           api_sample world_garbage 0 [x41; x42]).
  - reflexivity.
  - vm_compute. reflexivity.
  - vm_compute. repeat constructor.
Defined.

Lemma receiveFile_blocks_missing_witness :
  exists w',
    _receiveFile seconds_sample Ack_reqBody_sample MsgBlockCount_sample
      zlib_decompress_sample decode_utf8_sample api_sample world_lead_short
    = (Raise socket_timeout, w')
    /\ outbox w'
       = outbox world_lead_short
         ++ acks_for seconds_sample Ack_bytes_sample
              (controllerIpAndPort api_sample) (time_ns world_lead_short)
              (inbox world_lead_short).
Proof.
  apply (receiveFile_blocks_missing seconds_sample Ack_reqBody_sample
           MsgBlockCount_sample zlib_decompress_sample decode_utf8_sample
           api_sample seconds_sample_fit Ack_bytes_sample Ack_sample_encodes
           world_lead_short RECV_SLICE 0
           (frame_sample 9 MSP_LEADMESSAGE_MESSAGE_TYPE 0
              (lead_xml_sample ++ [x00]))
           [(10, frame_sample 10 MSP_BLOCKMESSAGE_MESSAGE_TYPE 0
                   (subheader_sample ++ [x41; x42]))]
           [] 2).
  - reflexivity.
  - reflexivity.
  - repeat constructor; vm_compute; (reflexivity || discriminate).
  - vm_compute. reflexivity.
  - vm_compute. reflexivity.
  - vm_compute. repeat constructor.
  - exact I.
Defined.

Lemma receiveFile_lead_text_witness :
  exists w',
    _receiveFile seconds_sample Ack_reqBody_sample MsgBlockCount_sample
      zlib_decompress_sample decode_utf8_sample api_sample world_lead
    = (Return (literal "ABCD"), w')
    /\ inbox w' = [].
Proof.
  apply (receiveFile_lead_text seconds_sample Ack_reqBody_sample
           MsgBlockCount_sample zlib_decompress_sample decode_utf8_sample
           api_sample seconds_sample_fit Ack_bytes_sample Ack_sample_encodes
           world_lead 0
           (frame_sample 9 MSP_LEADMESSAGE_MESSAGE_TYPE 0
              (lead_xml_sample ++ [x00]))
           [(10, frame_sample 10 MSP_BLOCKMESSAGE_MESSAGE_TYPE 0
                   (subheader_sample ++ [x41; x42]));
            (20, frame_sample 11 MSP_BLOCKMESSAGE_MESSAGE_TYPE 0
                   (subheader_sample ++ [x43; x44]))]
           [] 2).
  - reflexivity.
  - repeat constructor; vm_compute; (reflexivity || discriminate).
  - vm_compute. reflexivity.
  - vm_compute. reflexivity.
  - reflexivity.
Defined.

Lemma receiveFile_short_payload_witness :
  _receiveFile seconds_sample Ack_reqBody_sample MsgBlockCount_sample
    zlib_decompress_sample decode_utf8_sample api_sample world_tiny
  = (outcome_of (decode_utf8_sample []),
     after_first seconds_sample Ack_bytes_sample
       (controllerIpAndPort api_sample) world_tiny 0
       (frame_sample 9 GETTELEMETRY_MESSAGE_TYPE 0 [x41; x42; x43; x44]) []).
Proof.
  apply (receiveFile_short_payload seconds_sample Ack_reqBody_sample
           MsgBlockCount_sample zlib_decompress_sample decode_utf8_sample
           api_sample seconds_sample_fit Ack_bytes_sample Ack_sample_encodes
           world_tiny 0
           (frame_sample 9 GETTELEMETRY_MESSAGE_TYPE 0 [x41; x42; x43; x44])
           []).
  - reflexivity.
  - vm_compute. reflexivity.
  - vm_compute. split; repeat constructor.
  - vm_compute. discriminate.
  - vm_compute. reflexivity.
Defined.

Lemma receiveFile_no_blocks_witness :
  _receiveFile_assemble seconds_sample Ack_reqBody_sample MsgBlockCount_table
    api_sample world_lead_zero
  = (Return (fields_compressed
               (decoded (frame_sample 9 MSP_LEADMESSAGE_MESSAGE_TYPE 0
                           (lead_xml_zero ++ [x00]))) =? 1, []),
     after_first seconds_sample Ack_bytes_sample
       (controllerIpAndPort api_sample) world_lead_zero 0
       (frame_sample 9 MSP_LEADMESSAGE_MESSAGE_TYPE 0 (lead_xml_zero ++ [x00]))
       [(10, frame_sample 10 MSP_BLOCKMESSAGE_MESSAGE_TYPE 0
               (subheader_sample ++ [x41; x42]))]).
Proof.
  apply (receiveFile_no_blocks seconds_sample Ack_reqBody_sample
           MsgBlockCount_table api_sample seconds_sample_fit
           Ack_bytes_sample Ack_sample_encodes world_lead_zero 0
           (frame_sample 9 MSP_LEADMESSAGE_MESSAGE_TYPE 0
              (lead_xml_zero ++ [x00]))
           [(10, frame_sample 10 MSP_BLOCKMESSAGE_MESSAGE_TYPE 0
                   (subheader_sample ++ [x41; x42]))]
           0).
  - reflexivity.
  - split; vm_compute; [reflexivity | repeat constructor].
  - vm_compute. reflexivity.
  - vm_compute. reflexivity.
  - lia.
Defined.

Lemma receiveFile_bad_lead_witness :
  _receiveFile seconds_sample Ack_reqBody_sample MsgBlockCount_sample
    zlib_decompress_sample decode_utf8_sample api_sample world_lead_bad
  = (Raise xml_error,
     after_first seconds_sample Ack_bytes_sample
       (controllerIpAndPort api_sample) world_lead_bad 0
       (frame_sample 9 MSP_LEADMESSAGE_MESSAGE_TYPE 0 [x41; x42; x00])
       [(10, frame_sample 10 MSP_BLOCKMESSAGE_MESSAGE_TYPE 0
               (subheader_sample ++ [x41; x42]))]).
Proof.
  apply (receiveFile_bad_lead seconds_sample Ack_reqBody_sample
           MsgBlockCount_sample zlib_decompress_sample decode_utf8_sample
           api_sample seconds_sample_fit Ack_bytes_sample Ack_sample_encodes
           world_lead_bad 0
           (frame_sample 9 MSP_LEADMESSAGE_MESSAGE_TYPE 0 [x41; x42; x00])
           [(10, frame_sample 10 MSP_BLOCKMESSAGE_MESSAGE_TYPE 0
                   (subheader_sample ++ [x41; x42]))]
           xml_error).
  - reflexivity.
  - split; vm_compute; [reflexivity | repeat constructor].
  - vm_compute. reflexivity.
  - vm_compute. reflexivity.
Defined.

Lemma command_returns_witness :
  setFilterSpeed seconds_sample binary64 api_sample (literal "A")
    world_command
  = (Return tt,
     {| time_ns := time_ns world_command
                   + total_wait
                       [(0, frame_sample 5 ACK_MESSAGE_TYPE 0 []);
                        (600000000, frame_sample 6 ACK_MESSAGE_TYPE 0 []);
                        (100, frame_sample 7 ACK_MESSAGE_TYPE 0 [])];
        entropy := tl (entropy world_command);
        timeout := Some RECV_SLICE;
        inbox := [(0, frame_sample 9 GETTELEMETRY_MESSAGE_TYPE 0
                        (subheader_sample ++ [x4f; x4b]))];
        outbox := outbox world_command
                  ++ [(request_wire seconds_sample world_command
                         SET_FILTER_SPEED_MESSAGE_TYPE (literal "A") [x41],
                       controllerIpAndPort api_sample)] |}).
Proof.
  apply (command_returns seconds_sample binary64 api_sample
           seconds_sample_fit
           world_command SET_FILTER_SPEED_MESSAGE_TYPE (literal "A") [x41]
           [(0, frame_sample 5 ACK_MESSAGE_TYPE 0 []);
            (600000000, frame_sample 6 ACK_MESSAGE_TYPE 0 [])]
           100 (frame_sample 7 ACK_MESSAGE_TYPE 0 [])
           [(0, frame_sample 9 GETTELEMETRY_MESSAGE_TYPE 0
                  (subheader_sample ++ [x4f; x4b]))]).
  - vm_compute. split; [discriminate | reflexivity].
  - vm_compute. reflexivity.
  - reflexivity.
  - repeat constructor.
    + exists (decoded (frame_sample 5 ACK_MESSAGE_TYPE 0 [])).
      split; [vm_compute; reflexivity | vm_compute; discriminate].
    + exists (decoded (frame_sample 6 ACK_MESSAGE_TYPE 0 [])).
      split; [vm_compute; reflexivity | vm_compute; discriminate].
  - vm_compute. repeat constructor.
  - vm_compute. reflexivity.
  - vm_compute. reflexivity.
Defined.

Lemma exchange_response_late_witness :
  exists w',
    exchange seconds_sample Ack_reqBody_sample MsgBlockCount_sample
      zlib_decompress_sample decode_utf8_sample binary64 api_sample
      GETTELEMETRY_MESSAGE_TYPE (literal "A") world_reordered
    = (Raise socket_timeout, w')
    /\ outbox w'
       = outbox world_reordered
         ++ [(request_wire seconds_sample world_reordered
                GETTELEMETRY_MESSAGE_TYPE (literal "A") [x41],
              controllerIpAndPort api_sample)]
    /\ time_ns w'
       = time_ns world_reordered
         + total_wait
             [(0, frame_sample 9 GETTELEMETRY_MESSAGE_TYPE 0
                    (subheader_sample ++ [x4f; x4b]));
              (0, frame_sample 7 ACK_MESSAGE_TYPE 0 [])]
         + RECV_SLICE.
Proof.
  apply (exchange_response_late seconds_sample Ack_reqBody_sample
           MsgBlockCount_sample zlib_decompress_sample decode_utf8_sample
           binary64 api_sample seconds_sample_fit world_reordered
           GETTELEMETRY_MESSAGE_TYPE (literal "A") [x41]
           [(0, frame_sample 9 GETTELEMETRY_MESSAGE_TYPE 0
                  (subheader_sample ++ [x4f; x4b]))]
           0 (frame_sample 7 ACK_MESSAGE_TYPE 0 []) []).
  - vm_compute. split; [discriminate | reflexivity].
  - vm_compute. reflexivity.
  - reflexivity.
  - repeat constructor.
    exists (decoded (frame_sample 9 GETTELEMETRY_MESSAGE_TYPE 0
                       (subheader_sample ++ [x4f; x4b]))).
    split; [vm_compute; reflexivity | vm_compute; discriminate].
  - vm_compute. repeat constructor.
  - vm_compute. reflexivity.
  - vm_compute. reflexivity.
  - exact I.
Defined.
